(** * Adaptive LLM invocation layer: a shallow embedding

    This development embeds the task classifier
    ([backend/services/embedding_task_classifier.py]), the request adapter and
    invocation engine ([backend/services/llm.py]) and the decision recorder
    ([backend/services/model_selection_logger.py]) and states the properties
    of the written specification against them.

    Conventions of the embedding:
    - Python [str] values are Rocq [string]s; the text handled is ASCII, so
      [str.lower] only moves the letters A..Z.
    - Python [float] values are IEEE-754 binary64 numbers, taken from the
      Standard Library's executable specification [SpecFloat] with
      [prec = 53] and [emax = 1024]: NaN, signed zeros and infinities are
      first-class values there, as they are in numpy.
    - message dictionaries are mutable objects: they live in a [heap] and
      message lists are lists of references, so that two lists sharing a
      dictionary observe each other's writes.
    - a raised Python exception is the [Raise] result. *)

From Stdlib Require Import ZArith String Ascii List Bool Lia SpecFloat.
From stdpp Require Import base decidable list strings.

Import ListNotations.
Local Open Scope string_scope.
Local Open Scope list_scope.

(* ------------------------------------------------------------------ *)
(** ** Python strings *)

Module PyStr.

(** [str.lower], on ASCII. *)
Definition lower_char (c : ascii) : ascii :=
  let n := nat_of_ascii c in
  if (65 <=? n)%nat && (n <=? 90)%nat then ascii_of_nat (n + 32) else c.

Fixpoint lower (s : string) : string :=
  match s with
  | EmptyString => EmptyString
  | String c s' => String (lower_char c) (lower s')
  end.

(** [s.startswith(p)]. *)
Fixpoint startswith (p s : string) : bool :=
  match p, s with
  | EmptyString, _ => true
  | String a p', String b s' => if Ascii.eqb a b then startswith p' s' else false
  | String _ _, EmptyString => false
  end.

(** [needle in hay]: some suffix of [hay] starts with [needle]. *)
Fixpoint contains (needle hay : string) : bool :=
  startswith needle hay ||
  match hay with
  | EmptyString => false
  | String _ hay' => contains needle hay'
  end.

(** [any(term in s for term in terms)]. *)
Definition any_in (terms : list string) (s : string) : bool :=
  existsb (fun term => contains term s) terms.

(** [s.endswith(p)], for a one-character [p]. *)
Fixpoint endswith_char (c : ascii) (s : string) : bool :=
  match s with
  | EmptyString => false
  | String a EmptyString => Ascii.eqb a c
  | String _ s' => endswith_char c s'
  end.

(** The characters [str.split()] treats as separators ([str.isspace]). *)
Definition is_space (c : ascii) : bool :=
  let n := nat_of_ascii c in
  ((9 <=? n)%nat && (n <=? 13)%nat) || ((28 <=? n)%nat && (n <=? 32)%nat).

(** [s.split()]: the maximal runs of non-blank characters.  [cur] is the
    word being read, kept reversed. *)
Fixpoint rev_string (acc s : string) : string :=
  match s with
  | EmptyString => acc
  | String c s' => rev_string (String c acc) s'
  end.

Definition flush (cur : string) (k : list string) : list string :=
  match cur with
  | EmptyString => k
  | _ => rev_string EmptyString cur :: k
  end.

Fixpoint split_from (cur : string) (s : string) : list string :=
  match s with
  | EmptyString => flush cur []
  | String c s' =>
      if is_space c then flush cur (split_from EmptyString s')
      else split_from (String c cur) s'
  end.

Definition split (s : string) : list string := split_from EmptyString s.

(** [s[:n]]. *)
Fixpoint take (n : nat) (s : string) : string :=
  match n, s with
  | O, _ => EmptyString
  | S n', String c s' => String c (take n' s')
  | S _, EmptyString => EmptyString
  end.

(** [s.split('/', 1)]: [None] when there is no slash (a one-element list
    in Python), otherwise the text before and after the first slash. *)
Fixpoint split_slash (s : string) : option (string * string) :=
  match s with
  | EmptyString => None
  | String c s' =>
      if Ascii.eqb c "/"%char then Some (EmptyString, s')
      else match split_slash s' with
           | Some (a, b) => Some (String c a, b)
           | None => None
           end
  end.

(** Truth value of an optional string: [None] and [""] are falsy. *)
Definition truthy (o : option string) : bool :=
  match o with
  | Some (String _ _) => true
  | _ => false
  end.

End PyStr.

(* ------------------------------------------------------------------ *)
(** ** Python floats (IEEE-754 binary64) *)

Module F64.

Definition prec : Z := 53.
Definition emax : Z := 1024.

Definition float : Type := spec_float.

Definition nan : float := S754_nan.
Definition zero : float := S754_zero false.

Definition of_Z (z : Z) : float := binary_normalize prec emax z 0 false.

Definition add : float -> float -> float := SFadd prec emax.
Definition sub : float -> float -> float := SFsub prec emax.
Definition mul : float -> float -> float := SFmul prec emax.
Definition div : float -> float -> float := SFdiv prec emax.
Definition sqrt : float -> float := SFsqrt prec emax.

(** [x < y], [x == y] and [x != y]; every comparison with NaN is false,
    except [!=] which is true. *)
Definition ltb : float -> float -> bool := SFltb.
Definition eqb : float -> float -> bool := SFeqb.
Definition neqb (x y : float) : bool := negb (SFeqb x y).

(** The decimal literal [num / den] (such as [0.65] = [65 / 100]): the
    binary64 number nearest to the quotient, which is what the correctly
    rounded division of the two exactly representable integers returns. *)
Definition lit (num den : Z) : float := div (of_Z num) (of_Z den).

Definition is_nan (x : float) : bool :=
  match x with S754_nan => true | _ => false end.

Definition is_zero (x : float) : bool :=
  match x with S754_zero _ => true | _ => false end.

End F64.

(* ------------------------------------------------------------------ *)
(** ** Results of fallible code *)

Inductive exn : Type :=
| ValueError        (* numpy: shapes not aligned *)
| IndexError        (* list index out of range *)
| KeyError          (* missing dictionary key *)
| AttributeError.   (* e.g. [endswith] on a value that is not a string *)

Inductive res (A : Type) : Type :=
| Ok (a : A)
| Raise (e : exn).

Arguments Ok {A} a.
Arguments Raise {A} e.

#[global] Instance res_bind : MBind res :=
  fun A B (k : A -> res B) (r : res A) =>
    match r with
    | Ok a => k a
    | Raise e => Raise e
    end.

Fixpoint mapM {A B : Type} (f : A -> res B) (l : list A) : res (list B) :=
  match l with
  | [] => Ok []
  | a :: l' => b ← f a; bs ← mapM f l'; Ok (b :: bs)
  end.

(* ------------------------------------------------------------------ *)
(** ** backend/services/model_selection_logger.py *)

Module ModelSelectionLogger.

Import F64.

(** [prompt[:50] + "..." if len(prompt) > 50 else prompt]. *)
Definition truncated_prompt (prompt : string) : string :=
  if (50 <? String.length prompt)%nat
  then PyStr.take 50 prompt +:+ "..."
  else prompt.

(** The row inserted into the table [model_selection_logs]. *)
Record db_row : Type := {
  prompt_snippet : string;
  prompt_length : nat;
  task_type : string;
  confidence : float;
  selected_model : string;
  override_reason : option string
}.

Definition log_model_selection_to_db (prompt task_type : string)
  (confidence : float) (selected_model : string)
  (override_reason : option string) : db_row :=
  {| prompt_snippet := truncated_prompt prompt;
     prompt_length := String.length prompt;
     task_type := task_type;
     confidence := confidence;
     selected_model := selected_model;
     override_reason := override_reason |}.

(** The dictionary [log_data] written to the log file as JSON. *)
Record log_data : Type := {
  ld_timestamp : string;
  ld_prompt_preview : string;
  ld_prompt_length : nat;
  ld_task_type : string;
  ld_confidence : float;
  ld_selected_model : string;
  ld_override_applied : bool;
  ld_override_reason : option string
}.

Section Log.

(** [datetime.now().isoformat()] and the builtin [round(x, 2)]. *)
Variable now : string.
Variable round2 : float -> float.

(** What one call hands to the two sinks: the file record and the
    database row. *)
Definition log_model_selection (prompt task_type : string)
  (confidence : float) (selected_model : string)
  (override_reason : option string) : log_data * db_row :=
  ({| ld_timestamp := now;
      ld_prompt_preview := truncated_prompt prompt;
      ld_prompt_length := String.length prompt;
      ld_task_type := task_type;
      ld_confidence := round2 confidence;
      ld_selected_model := selected_model;
      ld_override_applied :=
        match override_reason with Some _ => true | None => false end;
      ld_override_reason := override_reason |},
   log_model_selection_to_db prompt task_type confidence selected_model
     override_reason).

End Log.

End ModelSelectionLogger.

(* ------------------------------------------------------------------ *)
(** ** backend/services/embedding_task_classifier.py *)

Module Classifier.

Import F64.

Definition TASK_MODELS : list (string * string) :=
  [ ("coding", "qwen2.5-coder:32b-instruct-q8_0");
    ("reasoning", "mixtral:8x22b-instruct-v0.1-q4_K_M");
    ("creative", "qwen3:8b");
    ("general", "qwen3:32b") ].

(** [d.get(k)] on a dictionary written as its item list. *)
Fixpoint dict_get {V : Type} (d : list (string * V)) (k : string) : option V :=
  match d with
  | [] => None
  | (k', v) :: d' => if String.eqb k' k then Some v else dict_get d' k
  end.

(** [TASK_MODELS[k]], for the four keys the module's code uses. *)
Definition task_model (k : string) : string :=
  match dict_get TASK_MODELS k with
  | Some m => m
  | None => EmptyString
  end.

(** [np.dot(a, b)] on one-dimensional arrays: the sum of the products,
    [ValueError] when the lengths differ.  The products are added from left
    to right; numpy may group them otherwise, which changes roundings but
    not whether the sum of zeros and NaNs is a zero or a NaN. *)
Fixpoint dot_from (acc : float) (a b : list float) : res float :=
  match a, b with
  | [], [] => Ok acc
  | x :: a', y :: b' => dot_from (add acc (mul x y)) a' b'
  | _, _ => Raise ValueError
  end.

Definition np_dot (a b : list float) : res float := dot_from zero a b.

(** [np.linalg.norm(a)]: the square root of [a . a]. *)
Definition np_norm (a : list float) : float :=
  sqrt (fold_left (fun acc x => add acc (mul x x)) a zero).

Definition cosine_similarity (a b : list float) : res float :=
  d ← np_dot a b;
  Ok (div d (mul (np_norm a) (np_norm b))).

(** [sorted(items, key=lambda x: x[1], reverse=True)].  CPython reverses
    the list, sorts it stably in ascending order asking only [<] of the
    keys, and reverses the result.  The ascending sort is written as a
    stable insertion sort: on keys that [<] orders totally every stable
    sort returns this list, and on keys of which none is [<] another (all
    NaN) CPython finds one ascending run and moves nothing, as here. *)
Fixpoint insert_by (x : string * float) (l : list (string * float))
  : list (string * float) :=
  match l with
  | [] => [x]
  | y :: l' => if ltb (snd x) (snd y) then x :: y :: l' else y :: insert_by x l'
  end.

Definition stable_sort (l : list (string * float)) : list (string * float) :=
  fold_left (fun acc x => insert_by x acc) l [].

Definition sorted_reverse (l : list (string * float)) : list (string * float) :=
  rev (stable_sort (rev l)).

Definition confidence_thresholds : list (string * float) :=
  [ ("coding", lit 65 100);
    ("reasoning", lit 60 100);
    ("creative", lit 65 100);
    ("general", lit 50 100) ].

(** [(similarity + 1) / 2]. *)
Definition to_confidence (similarity : float) : float :=
  div (add similarity (of_Z 1)) (of_Z 2).

(** The last resort of [get_embedding], used when no embedding service
    answers: a bag of words over 100 buckets.  [hash] is Python's string
    hash, which differs from one process to the next. *)
Section Fallback.

Variable hash : string -> Z.

(** [v[position] += w]. *)
Fixpoint add_at (v : list float) (position : nat) (w : float) : list float :=
  match v, position with
  | [], _ => []
  | x :: v', O => add x w :: v'
  | x :: v', S position' => x :: add_at v' position' w
  end.

(** [for i, word in enumerate(words[:100])], from index [i] on. *)
Fixpoint weigh (words : list string) (i : nat) (simple_embedding : list float)
  : list float :=
  match words with
  | [] => simple_embedding
  | word :: words' =>
      let position := Z.to_nat (hash word mod 100) in
      weigh words' (S i)
        (add_at simple_embedding position
           (div (of_Z 1) (of_Z (Z.of_nat (i + 1)))))
  end.

Definition fallback_embedding (text : string) : list float :=
  let words := PyStr.split (PyStr.lower text) in
  let simple_embedding := weigh (firstn 100 words) 0 (repeat zero 100) in
  let norm := np_norm simple_embedding in
  if ltb zero norm
  then map (fun x => div x norm) simple_embedding
  else simple_embedding.

End Fallback.

Section Classify.

(** [get_embedding] answers from a cache, a local or a hosted service,
    or a hash-based fallback; the classifier only sees the vector. *)
Variable get_embedding : string -> list float.

(** The module-level dictionary [TASK_EMBEDDINGS] as it stands when the
    similarities are computed, in insertion order. *)
Variable TASK_EMBEDDINGS : list (string * list float).

Definition similarities (prompt_embedding : list float)
  : res (list (string * float)) :=
  mapM (fun '(task_type, task_embedding) =>
          similarity ← cosine_similarity prompt_embedding task_embedding;
          Ok (task_type, similarity))
       TASK_EMBEDDINGS.

(** The ambiguity check, entered when there are at least two
    candidates and the best one is below its threshold. *)
Definition dampen (sorted_similarities : list (string * float))
  (best_task_type : string) (confidence : float) : res (string * float) :=
  match sorted_similarities with
  | _ :: (second_best_type, second_similarity) :: _ =>
      match dict_get confidence_thresholds best_task_type with
      | None => Raise KeyError
      | Some threshold =>
          if ltb confidence threshold then
            let second_confidence := to_confidence second_similarity in
            let confidence_gap := sub confidence second_confidence in
            if ltb confidence_gap (lit 1 10)
               && String.eqb second_best_type "general"
            then Ok ("general", second_confidence)
            else Ok (best_task_type, confidence)
          else Ok (best_task_type, confidence)
      end
  | _ => Ok (best_task_type, confidence)
  end.

Definition classify_task_with_embeddings (prompt : string)
  : res (string * float) :=
  let prompt_embedding := get_embedding prompt in
  sims ← similarities prompt_embedding;
  let sorted_similarities := sorted_reverse sims in
  match sorted_similarities with
  | [] => Raise IndexError
  | (best_task_type, max_similarity) :: _ =>
      let confidence := to_confidence max_similarity in
      '(best_task_type, confidence) ←
         dampen sorted_similarities best_task_type confidence;
      if ltb confidence (lit 55 100)
      then Ok ("general", confidence)
      else Ok (best_task_type, confidence)
  end.

Definition coding_terms : list string :=
  [ "code"; "function"; "programming"; "debug"; "algorithm"; "class";
    "method"; "variable"; "compile"; "syntax"; "api" ].

Definition reasoning_terms : list string :=
  [ "analyze"; "evaluate"; "compare"; "contrast"; "implications";
    "reasoning"; "logic"; "argument"; "debate"; "philosophy" ].

(** The part of [get_model_for_task] between the classification and the
    logging call: the model and the override reason. *)
Definition model_and_reason (task_type prompt : string)
  : string * option string :=
  let model :=
    match dict_get TASK_MODELS task_type with
    | Some m => m
    | None => task_model "general"
    end in
  let override_reason : option string := None in
  let prompt_lower := PyStr.lower prompt in
  if negb (String.eqb task_type "coding")
     && PyStr.any_in coding_terms prompt_lower
  then (task_model "coding", Some "coding_keywords_detected")
  else if (100 <? length (PyStr.split prompt))%nat
          && negb (String.eqb task_type "reasoning")
  then (task_model "reasoning", Some "long_complex_prompt")
  else if negb (String.eqb task_type "reasoning")
          && PyStr.any_in reasoning_terms prompt_lower
  then (task_model "reasoning", Some "reasoning_terms_detected")
  else (model, override_reason).

Variable now : string.
Variable round2 : float -> float.

(** Returns the model, together with what the call logged. *)
Definition get_model_for_task (prompt : string)
  : res (string * (ModelSelectionLogger.log_data * ModelSelectionLogger.db_row)) :=
  '(task_type, confidence) ← classify_task_with_embeddings prompt;
  let '(model, override_reason) := model_and_reason task_type prompt in
  Ok (model,
      ModelSelectionLogger.log_model_selection now round2
        prompt task_type confidence model override_reason).

End Classify.

End Classifier.


(* ------------------------------------------------------------------ *)
(** ** backend/services/llm.py: messages and the heap *)

Module LLM.

Import F64.

Definition MAX_RETRIES : nat := 3.
Definition RATE_LIMIT_DELAY : Z := 30.
Definition RETRY_DELAY : Z := 5.

(** The attributes read from [utils.config.config].  [None] stands for an
    attribute that is absent or [None]. *)
Record config : Type := {
  MODEL_TO_USE : string;
  OPENAI_API_KEY : option string;
  ANTHROPIC_API_KEY : option string;
  GROQ_API_KEY : option string;
  OPENROUTER_API_KEY : option string;
  OLLAMA_PROVIDER : option string;
  OLLAMA_API_BASE : option string;
  OR_SITE_URL : option string;
  OR_APP_NAME : option string
}.

(** A dictionary inside a content list.  [b_cache_control] is the value
    under the key ["cache_control"], written as its ["type"]; [b_rest] are
    the remaining keys, sorted by name. *)
Record block : Type := {
  b_type : option string;
  b_text : option string;
  b_cache_control : option string;
  b_rest : list (string * string)
}.

Inductive item : Type :=
| IDict (b : block)
| IOther (v : string).

(** The value under ["content"]: a string, a list of items, or anything
    else ([None] included). *)
Inductive content_value : Type :=
| CStr (s : string)
| CList (items : list item)
| COther (v : string).

(** A message dictionary.  [content = None]: the key is absent. *)
Record message : Type := {
  role : option string;
  content : option content_value;
  rest : list (string * string)
}.

#[global] Instance block_eq_dec : EqDecision block.
Proof. solve_decision. Defined.
#[global] Instance item_eq_dec : EqDecision item.
Proof. solve_decision. Defined.
#[global] Instance content_value_eq_dec : EqDecision content_value.
Proof. solve_decision. Defined.
#[global] Instance message_eq_dec : EqDecision message.
Proof. solve_decision. Defined.

Definition set_content (m : message) (c : content_value) : message :=
  {| role := role m; content := Some c; rest := rest m |}.

Definition role_is (m : message) (r : string) : bool :=
  match role m with
  | Some r' => String.eqb r' r
  | None => false
  end.

(** Message dictionaries are objects: a message list holds references
    into the heap.  [next_loc] is the first reference not yet in use. *)
Definition loc : Type := nat.

Record heap : Type := {
  cells : loc -> message;
  next_loc : loc
}.

Definition get (h : heap) (l : loc) : message := cells h l.

Definition set (h : heap) (l : loc) (m : message) : heap :=
  {| cells := fun l' => if Nat.eqb l' l then m else cells h l';
     next_loc := next_loc h |}.

Definition alloc (h : heap) (m : message) : loc * heap :=
  (next_loc h,
   {| cells := fun l' => if Nat.eqb l' (next_loc h) then m else cells h l';
      next_loc := S (next_loc h) |}).

(** The list as the caller reads it. *)
Definition view (h : heap) (messages : list loc) : list message :=
  map (get h) messages.

(** [a != b] on two lists of message dictionaries. *)
Definition lists_differ (h : heap) (a b : list loc) : bool :=
  negb (bool_decide (view h a = view h b)).

(* ------------------------------------------------------------------ *)
(** ** enhance_prompt_for_task, optimize_temperature *)

Definition known_task_types : list string :=
  [ "coding"; "reasoning"; "creative"; "chat" ].

Definition task_instructions : list (string * string) :=
  [ ("coding",
     "You are an expert programmer. Provide clean, efficient, and well-documented code. "
     +:+ "Focus on best practices, security, and performance. Include error handling "
     +:+ "and explain your implementation choices. Be precise and thorough.");
    ("reasoning",
     "You are a logical reasoning expert. Break down complex problems step by step. "
     +:+ "Consider multiple perspectives, identify assumptions, and evaluate evidence critically. "
     +:+ "Be thorough in your analysis and explain your reasoning clearly.");
    ("creative",
     "You are a creative assistant. Think outside the box and generate novel ideas. "
     +:+ "Use vivid language, metaphors, and storytelling techniques. "
     +:+ "Don't be constrained by conventional thinking.");
    ("chat",
     "You are a helpful, friendly assistant. Provide concise, accurate information. "
     +:+ "Be conversational but efficient. Anticipate follow-up questions and provide "
     +:+ "relevant context when appropriate.") ].

(** The first message whose role is ["system"]. *)
Fixpoint find_system (h : heap) (messages : list loc) : option loc :=
  match messages with
  | [] => None
  | l :: messages' =>
      if role_is (get h l) "system" then Some l else find_system h messages'
  end.

(** [current_content] with its separator: [". "] unless it already ends
    with a full stop. *)
Definition with_separator (current_content : string) : string :=
  if negb (PyStr.endswith_char "."%char current_content)
  then current_content +:+ ". "
  else current_content +:+ " ".

Definition enhance_prompt_for_task (h : heap) (messages : list loc)
  (task_type : string) : res (heap * list loc) :=
  if match messages with [] => true | _ => false end
     || negb (existsb (String.eqb task_type) known_task_types)
  then Ok (h, messages)
  else
    (* [messages.copy()]: a new list holding the same references *)
    let enhanced_messages := messages in
    match find_system h enhanced_messages with
    | Some l =>
        current_content ←
          match content (get h l) with
          | None => Ok EmptyString
          | Some (CStr s) => Ok s
          | Some _ => Raise AttributeError
          end;
        match Classifier.dict_get task_instructions task_type with
        | None => Raise KeyError
        | Some instruction =>
            Ok (set h l (set_content (get h l)
                           (CStr (with_separator current_content +:+ instruction))),
                enhanced_messages)
        end
    | None =>
        match Classifier.dict_get task_instructions task_type with
        | None => Raise KeyError
        | Some instruction =>
            let '(l, h') :=
              alloc h {| role := Some "system";
                         content := Some (CStr instruction);
                         rest := [] |} in
            Ok (h', l :: enhanced_messages)
        end
    end.

Definition task_temperatures : list (string * float) :=
  [ ("coding", lit 1 10);
    ("reasoning", lit 2 10);
    ("creative", lit 8 10);
    ("chat", lit 5 10) ].

Definition optimize_temperature (task_type : string) (user_temperature : float)
  : float :=
  if neqb user_temperature zero then user_temperature
  else match Classifier.dict_get task_temperatures task_type with
       | Some t => t
       | None => zero
       end.

(* ------------------------------------------------------------------ *)
(** ** select_best_model_for_task *)

Definition available_models : list (string * string) :=
  [ ("coding", "qwen2.5-coder:32b-instruct-q8_0");
    ("reasoning", "mixtral:8x22b-instruct-v0.1-q4_K_M");
    ("creative", "llama3.1:8b");
    ("chat", "qwen2.5:32b-instruct-q4_K_M") ].

(** The content of the last message of role ["user"], [""] when there is
    none or it has no content. *)
Fixpoint last_user_content (h : heap) (reversed_messages : list loc)
  : content_value :=
  match reversed_messages with
  | [] => CStr EmptyString
  | l :: reversed_messages' =>
      if role_is (get h l) "user" then
        match content (get h l) with
        | None => CStr EmptyString
        | Some c => c
        end
      else last_user_content h reversed_messages'
  end.

Definition select_best_model_for_task (cfg : config) (h : heap)
  (task_type : string) (messages : list loc) : res string :=
  let default_model := MODEL_TO_USE cfg in
  task_type ←
    (if String.eqb task_type "auto" then
       match messages with
       | [] => Ok task_type
       | _ =>
           match last_user_content h (rev messages) with
           | CStr last_user_msg =>
               let lowered := PyStr.lower last_user_msg in
               if PyStr.any_in
                    ["code"; "function"; "programming"; "script"; "algorithm"; "debug"]
                    lowered
               then Ok "coding"
               else if PyStr.any_in
                         ["explain"; "why"; "how"; "analyze"; "compare"; "evaluate"]
                         lowered
               then Ok "reasoning"
               else if PyStr.any_in
                         ["story"; "creative"; "imagine"; "design"; "generate"]
                         lowered
               then Ok "creative"
               else Ok "chat"
           | _ => Raise AttributeError   (* [.lower()] on a list or [None] *)
           end
       end
     else Ok task_type);
  Ok (match Classifier.dict_get available_models task_type with
      | Some m => m
      | None => default_model
      end).

(* ------------------------------------------------------------------ *)
(** ** Prompt caching (the Anthropic branch of prepare_params) *)

Definition ephemeral : string := "ephemeral".

(** [[{"type": "text", "text": content, "cache_control": {"type": "ephemeral"}}]]. *)
Definition wrapped (text : string) : content_value :=
  CList [ IDict {| b_type := Some "text";
                   b_text := Some text;
                   b_cache_control := Some ephemeral;
                   b_rest := [] |} ].

Definition is_text (b : block) : bool :=
  match b_type b with
  | Some t => String.eqb t "text"
  | None => false
  end.

Definition has_cache_control (b : block) : bool :=
  match b_cache_control b with
  | Some _ => true
  | None => false
  end.

(** [item["cache_control"] = {"type": "ephemeral"}]. *)
Definition marked (b : block) : block :=
  {| b_type := b_type b;
     b_text := b_text b;
     b_cache_control := Some ephemeral;
     b_rest := b_rest b |}.

(** The loop over the system prompt's items: it marks the first text
    block that has no hint yet, and stops there. *)
Fixpoint mark_first (items : list item) : list item :=
  match items with
  | [] => []
  | IDict b :: items' =>
      if is_text b && negb (has_cache_control b)
      then IDict (marked b) :: items'
      else IDict b :: mark_first items'
  | it :: items' => it :: mark_first items'
  end.

(** The loop of [apply_cache_control]: every text block without a hint. *)
Definition mark_all (items : list item) : list item :=
  map (fun it =>
         match it with
         | IDict b =>
             if is_text b && negb (has_cache_control b)
             then IDict (marked b) else it
         | IOther _ => it
         end) items.

(** Step 1: the first message, when it is a system prompt. *)
Definition cache_system_prompt (h : heap) (messages : list loc) : heap :=
  match messages with
  | l :: _ =>
      if role_is (get h l) "system" then
        match content (get h l) with
        | Some (CStr s) => set h l (set_content (get h l) (wrapped s))
        | Some (CList items) =>
            set h l (set_content (get h l) (CList (mark_first items)))
        | _ => h
        end
      else h
  | [] => h
  end.

(** Step 2: the indices found by the backwards scan; [None] is the
    source's [-1]. *)
Record found : Type := {
  last_user_idx : option nat;
  second_last_user_idx : option nat;
  last_assistant_idx : option nat
}.

Definition all_found (f : found) : bool :=
  match last_user_idx f, second_last_user_idx f, last_assistant_idx f with
  | Some _, Some _, Some _ => true
  | _, _, _ => false
  end.

Definition note (h : heap) (i : nat) (l : loc) (f : found) : found :=
  if role_is (get h l) "user" then
    match last_user_idx f, second_last_user_idx f with
    | None, _ =>
        {| last_user_idx := Some i;
           second_last_user_idx := second_last_user_idx f;
           last_assistant_idx := last_assistant_idx f |}
    | Some _, None =>
        {| last_user_idx := last_user_idx f;
           second_last_user_idx := Some i;
           last_assistant_idx := last_assistant_idx f |}
    | Some _, Some _ => f
    end
  else if role_is (get h l) "assistant" then
    match last_assistant_idx f with
    | None =>
        {| last_user_idx := last_user_idx f;
           second_last_user_idx := second_last_user_idx f;
           last_assistant_idx := Some i |}
    | Some _ => f
    end
  else f.

(** [for i in range(len(messages) - 1, -1, -1)], with its early exit. *)
Fixpoint scan (h : heap) (backwards : list (nat * loc)) (f : found) : found :=
  match backwards with
  | [] => f
  | (i, l) :: backwards' =>
      let f' := note h i l f in
      if all_found f' then f' else scan h backwards' f'
  end.

Definition find_indices (h : heap) (messages : list loc) : found :=
  scan h (rev (combine (seq 0 (length messages)) messages))
       {| last_user_idx := None;
          second_last_user_idx := None;
          last_assistant_idx := None |}.

Definition apply_cache_control (h : heap) (messages : list loc)
  (message_idx : option nat) : heap :=
  match message_idx with
  | None => h
  | Some i =>
      match messages !! i with
      | None => h
      | Some l =>
          match content (get h l) with
          | Some (CStr s) => set h l (set_content (get h l) (wrapped s))
          | Some (CList items) =>
              set h l (set_content (get h l) (CList (mark_all items)))
          | _ => h
          end
      end
  end.

Definition apply_prompt_caching (h : heap) (messages : list loc) : heap :=
  let h := cache_system_prompt h messages in
  let f := find_indices h messages in
  let h := apply_cache_control h messages (last_user_idx f) in
  let h := apply_cache_control h messages (second_last_user_idx f) in
  apply_cache_control h messages (last_assistant_idx f).

(* ------------------------------------------------------------------ *)
(** ** prepare_params *)

(** The arguments shared by [prepare_params] and [make_llm_api_call]. *)
Record request : Type := {
  messages : list loc;
  model_name : string;
  temperature : float;
  max_tokens : option Z;
  response_format : option string;
  tools : option (list string);
  tool_choice : string;
  api_key : option string;
  api_base : option string;
  stream : bool;
  top_p : option float;
  model_id : option string;
  enable_thinking : option bool;
  reasoning_effort : option string;
  task_type : string
}.

(** The dictionary [params]; an optional field is a key that may be
    absent. *)
Record params : Type := {
  p_model : string;
  p_messages : list loc;
  p_temperature : float;
  p_response_format : option string;
  p_top_p : option float;
  p_stream : bool;
  p_api_key : option string;
  p_api_base : option string;
  p_model_id : option string;
  p_max_tokens : option Z;
  p_max_completion_tokens : option Z;
  p_tools : option (list string);
  p_tool_choice : option string;
  p_provider : option string;
  p_extra_headers : option (list (string * string));
  p_reasoning_effort : option string
}.

(** [d[k] = v] on a dictionary written as its item list. *)
Fixpoint dict_set (d : list (string * string)) (k v : string)
  : list (string * string) :=
  match d with
  | [] => [(k, v)]
  | (k', v') :: d' =>
      if String.eqb k' k then (k, v) :: d' else (k', v') :: dict_set d' k v
  end.

Definition mentions_anthropic (name : string) : bool :=
  PyStr.contains "claude" (PyStr.lower name)
  || PyStr.contains "anthropic" (PyStr.lower name).

Definition ollama_configured (cfg : config) : bool :=
  match OLLAMA_PROVIDER cfg with
  | Some p => PyStr.truthy (Some p) && String.eqb (PyStr.lower p) "ollama"
  | None => false
  end.

Definition bedrock_claude_37_arn : string :=
  "arn:aws:bedrock:us-west-2:935064898258:inference-profile/us.anthropic.claude-3-7-sonnet-20250219-v1:0".

Definition prepare_params (cfg : config) (h : heap) (rq : request)
  : res (heap * params) :=
  let messages := messages rq in
  let model_name := model_name rq in
  let temperature := temperature rq in
  let task_type := task_type rq in
  (* model selection *)
  model_name ←
    (if PyStr.truthy (Some task_type) && String.eqb model_name (MODEL_TO_USE cfg)
     then
       suggested_model ← select_best_model_for_task cfg h task_type messages;
       Ok (if negb (String.eqb suggested_model model_name)
           then suggested_model else model_name)
     else Ok model_name);
  (* temperature *)
  let optimized_temperature := optimize_temperature task_type temperature in
  let temperature :=
    if neqb optimized_temperature temperature
    then optimized_temperature else temperature in
  (* prompt enhancement *)
  '(h, messages) ←
    (if negb (String.eqb task_type "auto") then
       '(h', enhanced_messages) ← enhance_prompt_for_task h messages task_type;
       Ok (h', if lists_differ h' enhanced_messages messages
               then enhanced_messages else messages)
     else Ok (h, messages));
  (* provider prefix *)
  let model_name :=
    if negb (PyStr.contains "/" model_name) then
      let provider :=
        if PyStr.truthy (OPENAI_API_KEY cfg) then Some "openai"
        else if PyStr.truthy (ANTHROPIC_API_KEY cfg) then Some "anthropic"
        else if PyStr.truthy (GROQ_API_KEY cfg) then Some "groq"
        else if PyStr.truthy (OPENROUTER_API_KEY cfg) then Some "openrouter"
        else None in
      match provider with
      | Some provider => provider +:+ "/" +:+ model_name
      | None => model_name
      end
    else model_name in
  let p_model := model_name in
  let p_api_key := if PyStr.truthy (api_key rq) then api_key rq else None in
  let p_api_base := if PyStr.truthy (api_base rq) then api_base rq else None in
  let p_model_id := if PyStr.truthy (model_id rq) then model_id rq else None in
  (* token limits *)
  let '(p_max_tokens, p_max_completion_tokens) :=
    match max_tokens rq with
    | Some n =>
        if PyStr.startswith "bedrock/" model_name
           && PyStr.contains "claude-3-7" model_name
        then (None, None)
        else if PyStr.contains "o1" model_name then (None, Some n)
        else (Some n, None)
    | None => (None, None)
    end in
  (* tools *)
  let '(p_tools, p_tool_choice) :=
    match tools rq with
    | Some (t :: ts) => (Some (t :: ts), Some (tool_choice rq))
    | _ => (None, None)
    end in
  (* Ollama *)
  let is_ollama_model :=
    PyStr.any_in ["qwen"; "mixtral"; "llama"] (PyStr.lower model_name)
    || ollama_configured cfg in
  let model_name :=
    if is_ollama_model then
      match PyStr.split_slash model_name with
      | Some (_, tail) => tail
      | None => model_name
      end
    else model_name in
  let p_model := if is_ollama_model then "ollama/" +:+ model_name else p_model in
  let p_api_base :=
    if is_ollama_model && PyStr.truthy (OLLAMA_API_BASE cfg)
    then OLLAMA_API_BASE cfg else p_api_base in
  let p_provider := if is_ollama_model then Some "ollama" else None in
  (* Claude headers *)
  let p_extra_headers :=
    if negb is_ollama_model && mentions_anthropic model_name
    then Some [("anthropic-beta", "output-128k-2025-02-19")]
    else None in
  (* OpenRouter *)
  let p_extra_headers :=
    if PyStr.startswith "openrouter/" model_name
       && (PyStr.truthy (OR_SITE_URL cfg) || PyStr.truthy (OR_APP_NAME cfg))
    then
      let extra_headers := default [] p_extra_headers in
      let extra_headers :=
        match OR_SITE_URL cfg with
        | Some site_url =>
            if PyStr.truthy (Some site_url)
            then dict_set extra_headers "HTTP-Referer" site_url
            else extra_headers
        | None => extra_headers
        end in
      let extra_headers :=
        match OR_APP_NAME cfg with
        | Some app_name =>
            if PyStr.truthy (Some app_name)
            then dict_set extra_headers "X-Title" app_name
            else extra_headers
        | None => extra_headers
        end in
      Some extra_headers
    else p_extra_headers in
  (* Bedrock *)
  let p_model_id :=
    if PyStr.startswith "bedrock/" model_name
       && negb (PyStr.truthy (model_id rq))
       && PyStr.contains "anthropic.claude-3-7-sonnet" model_name
    then Some bedrock_claude_37_arn else p_model_id in
  (* prompt caching *)
  let effective_model_name := p_model in
  let h :=
    if mentions_anthropic effective_model_name
    then apply_prompt_caching h messages else h in
  (* thinking *)
  let use_thinking := default false (enable_thinking rq) in
  let is_anthropic := mentions_anthropic effective_model_name in
  let '(p_reasoning_effort, p_temperature) :=
    if is_anthropic && use_thinking then
      (Some (if PyStr.truthy (reasoning_effort rq)
             then default "low" (reasoning_effort rq) else "low"),
       of_Z 1)
    else (None, temperature) in
  Ok (h,
      {| p_model := p_model;
         p_messages := messages;
         p_temperature := p_temperature;
         p_response_format := response_format rq;
         p_top_p := top_p rq;
         p_stream := stream rq;
         p_api_key := p_api_key;
         p_api_base := p_api_base;
         p_model_id := p_model_id;
         p_max_tokens := p_max_tokens;
         p_max_completion_tokens := p_max_completion_tokens;
         p_tools := p_tools;
         p_tool_choice := p_tool_choice;
         p_provider := p_provider;
         p_extra_headers := p_extra_headers;
         p_reasoning_effort := p_reasoning_effort |}).

(* ------------------------------------------------------------------ *)
(** ** make_llm_api_call *)

(** An exception raised by [litellm.acompletion]: the classes the
    [except] clauses test it against, and its [str]. *)
Record exc : Type := {
  is_RateLimitError : bool;
  is_OpenAIError : bool;
  is_JSONDecodeError : bool;
  is_BadRequestError : bool;
  exc_str : string
}.

Inductive outcome : Type :=
| Response (r : string)
| Raised (e : exc).

(** What the call does, in order: a request sent with the parameters of
    the moment, a backoff sleep, a provider prefix put on the model. *)
Inductive event : Type :=
| Call (p : params)
| Sleep (delay : Z)
| Prefix (model : string).

(** How the call ends. *)
Inductive final : Type :=
| Return (r : string)
| LLMError (msg : string)
| LLMRetryError (msg : string).

Definition with_model (p : params) (model : string) : params :=
  {| p_model := model;
     p_messages := p_messages p;
     p_temperature := p_temperature p;
     p_response_format := p_response_format p;
     p_top_p := p_top_p p;
     p_stream := p_stream p;
     p_api_key := p_api_key p;
     p_api_base := p_api_base p;
     p_model_id := p_model_id p;
     p_max_tokens := p_max_tokens p;
     p_max_completion_tokens := p_max_completion_tokens p;
     p_tools := p_tools p;
     p_tool_choice := p_tool_choice p;
     p_provider := p_provider p;
     p_extra_headers := p_extra_headers p;
     p_reasoning_effort := p_reasoning_effort p |}.

(** [handle_error]: the delay slept. *)
Definition handle_error (error : exc) : Z :=
  if is_RateLimitError error then RATE_LIMIT_DELAY else RETRY_DELAY.

Definition retry_error_msg (last_error : option exc) : string :=
  let error_msg := "Failed to make API call after 3 attempts" in
  match last_error with
  | Some e => error_msg +:+ ". Last error: " +:+ exc_str e
  | None => error_msg
  end.

Section Invocation.

Variable cfg : config.

(** [litellm.acompletion] on the parameters, at the attempt of the given
    number. *)
Variable acompletion : nat -> params -> outcome.

(** The provider prefix put on the model after "LLM Provider NOT provided". *)
Definition corrected_model (model : string) : string :=
  if ollama_configured cfg then "ollama/" +:+ model else "openai/" +:+ model.

(** [for attempt in range(MAX_RETRIES)], and the code after the loop. *)
Fixpoint attempts (range : list nat) (p : params) (last_error : option exc)
  : final * list event :=
  match range with
  | [] => (LLMRetryError (retry_error_msg last_error), [])
  | attempt :: range' =>
      match acompletion attempt p with
      | Response r => (Return r, [Call p])
      | Raised e =>
          if is_RateLimitError e || is_OpenAIError e || is_JSONDecodeError e
          then
            let '(f, evs) := attempts range' p (Some e) in
            (f, Call p :: Sleep (handle_error e) :: evs)
          else if is_BadRequestError e then
            if PyStr.contains "LLM Provider NOT provided" (exc_str e) then
              let p' := with_model p (corrected_model (p_model p)) in
              let '(f, evs) := attempts range' p' last_error in
              (f, Call p :: Prefix (p_model p') :: evs)
            else (LLMError ("API call failed: " +:+ exc_str e), [Call p])
          else (LLMError ("API call failed: " +:+ exc_str e), [Call p])
      end
  end.

Definition make_llm_api_call (h : heap) (rq : request)
  : res (heap * (final * list event)) :=
  '(h, p) ← prepare_params cfg h rq;
  Ok (h, attempts (seq 0 MAX_RETRIES) p None).

End Invocation.

(** Counting the events of a run, and the seconds slept. *)
Fixpoint calls (evs : list event) : nat :=
  match evs with
  | [] => 0
  | Call _ :: evs' => S (calls evs')
  | _ :: evs' => calls evs'
  end.



Fixpoint slept (evs : list event) : Z :=
  match evs with
  | [] => 0
  | Sleep d :: evs' => d + slept evs'
  | _ :: evs' => slept evs'
  end.




End LLM.

(* ------------------------------------------------------------------ *)
(** ** model_selection_logger.py: statistics, and the dashboard on top *)

Module SelectionStats.

Import F64.

(** The value a row holds under ["confidence"]: the key may be absent
    ([log.get] then gives the default 0), null, or a number. *)
Inductive confidence_field : Type :=
| CAbsent
| CNull
| CValue (c : float).

(** A row of [model_selection_logs] as the query returns it.  For the
    three text columns [None] is a key that is absent or null. *)
Record stored_log : Type := {
  sl_selected_model : option string;
  sl_task_type : option string;
  sl_confidence : confidence_field;
  sl_override_reason : option string
}.

(** [d[k] = d.get(k, 0) + 1]. *)
Fixpoint count_up (d : list (option string * nat)) (k : option string)
  : list (option string * nat) :=
  match d with
  | [] => [(k, 1%nat)]
  | (k', n) :: d' =>
      if decide (k' = k) then (k', (n + 1)%nat) :: d'
      else (k', n) :: count_up d' k
  end.

(** The four accumulators of the loop over the logs. *)
Record tally : Type := {
  t_models_used : list (option string * nat);
  t_task_types : list (option string * nat);
  t_confidence_sum : float;
  t_override_count : nat
}.

Definition tally_log (t : tally) (log : stored_log) : tally :=
  {| t_models_used := count_up (t_models_used t) (sl_selected_model log);
     t_task_types := count_up (t_task_types t) (sl_task_type log);
     t_confidence_sum :=
       add (t_confidence_sum t)
         match sl_confidence log with
         | CValue c => c
         | _ => zero
         end;
     t_override_count :=
       if PyStr.truthy (sl_override_reason log)
       then (t_override_count t + 1)%nat else t_override_count t |}.

(** Adding a null confidence to the sum raises TypeError. *)
Definition null_confidence (log : stored_log) : bool :=
  match sl_confidence log with
  | CNull => true
  | _ => false
  end.

(** The dictionary returned; [st_error] tells whether it has the key
    ["error"]. *)
Record stats : Type := {
  st_error : bool;
  total_selections : nat;
  models_used : list (option string * nat);
  task_types : list (option string * nat);
  confidence_avg : float;
  override_rate : float
}.

Definition empty_stats (error : bool) : stats :=
  {| st_error := error;
     total_selections := 0;
     models_used := [];
     task_types := [];
     confidence_avg := zero;
     override_rate := zero |}.

Section Stats.

(** The builtins [round(x, 2)] and [round(x, 1)]. *)
Variable round2 : float -> float.
Variable round1 : float -> float.

(** [get_selection_stats_from_db], from the rows the query returned.  An
    exception in the loop (a null confidence) discards what was counted:
    the [except] branch returns empty statistics with an error. *)
Definition get_selection_stats_from_db (logs : list stored_log) : stats :=
  match logs with
  | [] => empty_stats false
  | _ =>
      if existsb null_confidence logs then empty_stats true
      else
        let t :=
          fold_left tally_log logs
            {| t_models_used := [];
               t_task_types := [];
               t_confidence_sum := zero;
               t_override_count := 0 |} in
        let total := length logs in
        {| st_error := false;
           total_selections := total;
           models_used := t_models_used t;
           task_types := t_task_types t;
           confidence_avg :=
             if (0 <? total)%nat
             then round2 (div (t_confidence_sum t) (of_Z (Z.of_nat total)))
             else zero;
           override_rate :=
             if (0 <? total)%nat
             then round1 (mul (div (of_Z (Z.of_nat (t_override_count t)))
                                 (of_Z (Z.of_nat total)))
                            (of_Z 100))
             else zero |}
  end.

(** [get_selection_stats]: the analysis of the log files, which the
    source leaves for later. *)
Definition get_selection_stats (days : Z) : stats := empty_stats false.

(** api/model_selection_dashboard.py, [get_model_selection_stats]: the
    source of the statistics and the statistics. *)
Definition get_model_selection_stats (logs : list stored_log) (days : Z)
  : string * stats :=
  let db_stats := get_selection_stats_from_db logs in
  if (total_selections db_stats =? 0)%nat
  then ("log_files", get_selection_stats days)
  else ("database", db_stats).

End Stats.

End SelectionStats.

(* ------------------------------------------------------------------ *)
(** ** Vocabulary of the statements, and sample inputs *)

(** A float that is a zero of either sign, or NaN. *)
Definition zero_or_nan (x : F64.float) : bool := F64.is_zero x || F64.is_nan x.

(** What a reader of a message sees of its content: the items of a
    structured content, and the texts in order (a plain string reads as
    its one text). *)
Definition blocks (m : LLM.message) : list LLM.item :=
  match LLM.content m with
  | Some (LLM.CList items) => items
  | _ => []
  end.

Definition item_text (it : LLM.item) : option string :=
  match it with
  | LLM.IDict b => LLM.b_text b
  | LLM.IOther v => Some v
  end.

Definition texts (m : LLM.message) : list (option string) :=
  match LLM.content m with
  | Some (LLM.CStr s) => [Some s]
  | Some (LLM.CList items) => map item_text items
  | _ => []
  end.

Definition carries (it : LLM.item) : bool :=
  match it with
  | LLM.IDict b => LLM.has_cache_control b
  | LLM.IOther _ => false
  end.

(** Every block of [m] that carries a cache hint is found unchanged, at
    its position, in [m']. *)
Definition hints_kept (m m' : LLM.message) : Prop :=
  forall (i : nat) (b : LLM.block),
    blocks m !! i = Some (LLM.IDict b) ->
    LLM.has_cache_control b = true ->
    blocks m' !! i = Some (LLM.IDict b).

(** [m'] is [m] up to added cache hints: same role, same other keys, same
    texts in the same order, and no hinted block touched. *)
Definition preserved (m m' : LLM.message) : Prop :=
  LLM.role m' = LLM.role m
  /\ LLM.rest m' = LLM.rest m
  /\ texts m' = texts m
  /\ hints_kept m m'.

Definition heap_preserved (h h' : LLM.heap) : Prop :=
  LLM.next_loc h' = LLM.next_loc h
  /\ forall l, preserved (LLM.get h l) (LLM.get h' l).

(** Every text block of the message carries a cache hint, and its content
    is no plain string. *)
Definition fully_hinted (m : LLM.message) : Prop :=
  (forall s, LLM.content m <> Some (LLM.CStr s))
  /\ (forall b, In (LLM.IDict b) (blocks m) ->
                LLM.is_text b = true -> LLM.has_cache_control b = true).


(** The exception is caught by the first [except] clause of
    make_llm_api_call, the one that sleeps and retries. *)
Definition caught_for_retry (e : LLM.exc) : bool :=
  LLM.is_RateLimitError e || LLM.is_OpenAIError e || LLM.is_JSONDecodeError e.

Module Samples.

Import F64 LLM.

Definition cfg_openai : config :=
  {| MODEL_TO_USE := "default-model";
     OPENAI_API_KEY := Some "sk-test";
     ANTHROPIC_API_KEY := None;
     GROQ_API_KEY := None;
     OPENROUTER_API_KEY := None;
     OLLAMA_PROVIDER := None;
     OLLAMA_API_BASE := None;
     OR_SITE_URL := None;
     OR_APP_NAME := None |}.

Definition system_msg : message :=
  {| role := Some "system"; content := Some (CStr "Be brief"); rest := [] |}.

Definition user_msg : message :=
  {| role := Some "user"; content := Some (CStr "hello"); rest := [] |}.

(** A caller's heap: a system prompt at reference 0, a user message at 1. *)
Definition heap2 : heap :=
  {| cells := fun l => match l with 0%nat => system_msg | _ => user_msg end;
     next_loc := 2 |}.

Definition base_request : request :=
  {| messages := [0%nat; 1%nat];
     model_name := "gpt-4";
     temperature := lit 3 10;
     max_tokens := None;
     response_format := None;
     tools := None;
     tool_choice := "auto";
     api_key := None;
     api_base := None;
     stream := false;
     top_p := None;
     model_id := None;
     enable_thinking := Some false;
     reasoning_effort := Some "low";
     task_type := "auto" |}.

Definition with_task (rq : request) (t : string) (temp : float) : request :=
  {| messages := messages rq;
     model_name := model_name rq;
     temperature := temp;
     max_tokens := max_tokens rq;
     response_format := response_format rq;
     tools := tools rq;
     tool_choice := tool_choice rq;
     api_key := api_key rq;
     api_base := api_base rq;
     stream := stream rq;
     top_p := top_p rq;
     model_id := model_id rq;
     enable_thinking := enable_thinking rq;
     reasoning_effort := reasoning_effort rq;
     task_type := t |}.

(** The same request to a Claude model with thinking switched on. *)
Definition thinking_request : request :=
  {| messages := [0%nat; 1%nat];
     model_name := "anthropic/claude-3-7-sonnet-latest";
     temperature := lit 3 10;
     max_tokens := None;
     response_format := None;
     tools := None;
     tool_choice := "auto";
     api_key := None;
     api_base := None;
     stream := false;
     top_p := None;
     model_id := None;
     enable_thinking := Some true;
     reasoning_effort := Some "low";
     task_type := "auto" |}.



Definition rate_limited : exc :=
  {| is_RateLimitError := true;
     is_OpenAIError := true;
     is_JSONDecodeError := false;
     is_BadRequestError := false;
     exc_str := "Rate limit reached" |}.



Definition always_rate_limited (attempt : nat) (p : params) : outcome :=
  Raised rate_limited.

(** A system prompt of two text blocks, neither hinted yet. *)
Definition plain_block (text : string) : item :=
  IDict {| b_type := Some "text"; b_text := Some text;
           b_cache_control := None; b_rest := [] |}.

Definition two_block_system_msg : message :=
  {| role := Some "system";
     content := Some (CList [plain_block "Be brief"; plain_block "Be kind"]);
     rest := [] |}.

Definition heap_two_blocks : heap :=
  {| cells := fun _ => two_block_system_msg; next_loc := 1 |}.

(** A heap whose messages all are user messages with one text block. *)
Definition heap_blocks_user : heap :=
  {| cells := fun _ => {| role := Some "user";
                          content := Some (CList [plain_block "hello"]);
                          rest := [] |};
     next_loc := 2 |}.

Definition with_model_name (rq : request) (name : string) : request :=
  {| messages := messages rq;
     model_name := name;
     temperature := temperature rq;
     max_tokens := max_tokens rq;
     response_format := response_format rq;
     tools := tools rq;
     tool_choice := tool_choice rq;
     api_key := api_key rq;
     api_base := api_base rq;
     stream := stream rq;
     top_p := top_p rq;
     model_id := model_id rq;
     enable_thinking := enable_thinking rq;
     reasoning_effort := reasoning_effort rq;
     task_type := task_type rq |}.

(** Two stored selections. *)
Definition general_log : SelectionStats.stored_log :=
  {| SelectionStats.sl_selected_model := Some "qwen3:32b";
     SelectionStats.sl_task_type := Some "general";
     SelectionStats.sl_confidence := SelectionStats.CValue (lit 7 10);
     SelectionStats.sl_override_reason := None |}.

Definition coding_log : SelectionStats.stored_log :=
  {| SelectionStats.sl_selected_model := Some "qwen2.5-coder:32b-instruct-q8_0";
     SelectionStats.sl_task_type := Some "general";
     SelectionStats.sl_confidence := SelectionStats.CAbsent;
     SelectionStats.sl_override_reason := Some "coding_keywords_detected" |}.

(** A prompt of 51 characters. *)
Definition prompt51 : string :=
  "abcdefghijklmnopqrstuvwxyzabcdefghijklmnopqrstuvwxy".

End Samples.

(* ================================================================== *)
(** * Properties *)

(* ------------------------------------------------------------------ *)
(** ** The classifier on a zero embedding *)

Section ZeroEmbedding.

Import F64 Classifier.

Lemma mul_zero_l (x y : float) :
  is_zero x = true -> zero_or_nan (mul x y) = true.
Proof. destruct x; try discriminate. destruct y; reflexivity. Qed.

Lemma add_zero_or_nan (x y : float) :
  zero_or_nan x = true -> zero_or_nan y = true -> zero_or_nan (add x y) = true.
Proof.
  destruct x as [sx|sx| |sx mx ex]; try discriminate;
    destruct y as [sy|sy| |sy my ey]; try discriminate; intros _ _;
    try reflexivity.
  destruct sx, sy; reflexivity.
Qed.

Lemma div_zero_or_nan (x y : float) :
  zero_or_nan x = true -> zero_or_nan y = true -> div x y = nan.
Proof.
  destruct x as [sx|sx| |sx mx ex]; try discriminate;
    destruct y as [sy|sy| |sy my ey]; try discriminate; reflexivity.
Qed.

Lemma dot_from_zeros (n : nat) :
  forall (b : list float) (acc : float),
    length b = n -> zero_or_nan acc = true ->
    exists d, dot_from acc (repeat zero n) b = Ok d /\ zero_or_nan d = true.
Proof.
  induction n as [|n IH]; intros [|y b] acc Hlen Hacc; simpl in Hlen;
    try discriminate.
  - exists acc. split; [reflexivity | assumption].
  - cbn [repeat dot_from]. apply IH; [lia |].
    apply add_zero_or_nan; [assumption | now apply mul_zero_l].
Qed.

Lemma sum_squares_zeros (n : nat) :
  fold_left (fun acc x => add acc (mul x x)) (repeat zero n) zero = zero.
Proof. induction n as [|n IH]; [reflexivity | simpl; exact IH]. Qed.

Lemma np_norm_zeros (n : nat) : np_norm (repeat zero n) = zero.
Proof. unfold np_norm. now rewrite sum_squares_zeros. Qed.

(** The cosine similarity of the zero vector with any vector of its length
    is 0/0. *)
Lemma cosine_similarity_zeros (n : nat) (b : list float) :
  length b = n -> cosine_similarity (repeat zero n) b = Ok nan.
Proof.
  intros Hlen. unfold cosine_similarity, np_dot.
  destruct (dot_from_zeros n b zero Hlen eq_refl) as (d & -> & Hd).
  simpl. f_equal. rewrite np_norm_zeros.
  apply div_zero_or_nan; [assumption | now apply mul_zero_l].
Qed.

Lemma similarities_zeros (n : nat) (table : list (string * list float)) :
  Forall (fun kv => length (snd kv) = n) table ->
  similarities table (repeat zero n) = Ok (map (fun kv => (fst kv, nan)) table).
Proof.
  unfold similarities. induction 1 as [|[k v] table Hv _ IH]; [reflexivity |].
  simpl in *. rewrite (cosine_similarity_zeros n v Hv). simpl.
  now rewrite IH.
Qed.

(** C1: with the four prototypes in the order the module builds them, a
    prompt whose embedding is the zero vector is classified "coding" with a
    NaN confidence, not "general".  Every similarity is NaN; no NaN is below
    another, so the sort keeps the insertion order and the first category
    wins, and a NaN confidence is below no threshold. *)
Theorem zero_embedding_classified_coding
  (get_embedding : string -> list float) (prompt : string) (n : nat)
  (coding reasoning creative general : list float) :
  get_embedding prompt = repeat zero n ->
  length coding = n -> length reasoning = n ->
  length creative = n -> length general = n ->
  classify_task_with_embeddings get_embedding
    [ ("coding", coding); ("reasoning", reasoning);
      ("creative", creative); ("general", general) ] prompt
  = Ok ("coding", nan).
Proof.
  intros He Hc Hr Hk Hg. unfold classify_task_with_embeddings.
  rewrite He, (similarities_zeros n) by (repeat constructor; assumption).
  reflexivity.
Qed.

(** The empty prompt, embedded by the fallback path, is such an input. *)
Lemma fallback_embedding_empty (hash : string -> Z) :
  fallback_embedding hash "" = repeat zero 100.
Proof. reflexivity. Qed.

Lemma zero_embedding_classified_coding_witness :
  Classifier.classify_task_with_embeddings
    (Classifier.fallback_embedding (fun _ => 0%Z))
    [ ("coding", repeat (of_Z 1) 100);
      ("reasoning", repeat (of_Z 2) 100);
      ("creative", of_Z 3 :: repeat zero 99);
      ("general", repeat (lit 1 10) 100) ] ""
  = Ok ("coding", nan).
Proof.
  apply (zero_embedding_classified_coding _ "" 100); reflexivity.
Defined.

End ZeroEmbedding.

(* ------------------------------------------------------------------ *)
(** ** The decision record *)

Section DecisionRecord.

Import F64 ModelSelectionLogger.

Lemma length_take (n : nat) (s : string) :
  String.length (PyStr.take n s) = Nat.min n (String.length s).
Proof.
  revert s. induction n as [|n IH]; intros [|c s]; simpl; try reflexivity.
  now rewrite IH.
Qed.

Lemma take_all (n : nat) (s : string) :
  (String.length s <= n)%nat -> PyStr.take n s = s.
Proof.
  revert s. induction n as [|n IH]; intros [|c s]; simpl; intros H;
    try reflexivity; [lia |].
  rewrite IH; [reflexivity | lia].
Qed.

Lemma length_string_app (a b : string) :
  String.length (a +:+ b) = (String.length a + String.length b)%nat.
Proof. induction a as [|c a IH]; simpl; [reflexivity | now rewrite IH]. Qed.

Lemma truncated_prompt_short (prompt : string) :
  (String.length prompt <= 50)%nat -> truncated_prompt prompt = prompt.
Proof.
  intros H. unfold truncated_prompt.
  destruct (Nat.ltb_spec 50 (String.length prompt)); [lia | reflexivity].
Qed.

Lemma truncated_prompt_long (prompt : string) :
  (50 < String.length prompt)%nat ->
  truncated_prompt prompt = PyStr.take 50 prompt +:+ "...".
Proof.
  intros H. unfold truncated_prompt.
  destruct (Nat.ltb_spec 50 (String.length prompt)); [reflexivity | lia].
Qed.

(** As stated, the bound fails: a prompt of 51 characters is recorded with
    a snippet of 53. *)
Lemma prompt_snippet_exceeds_50 :
  ~ (forall prompt task_type confidence selected_model override_reason,
        (String.length
           (prompt_snippet
              (log_model_selection_to_db prompt task_type confidence
                 selected_model override_reason)) <= 50)%nat).
Proof.
  intros H.
  specialize (H Samples.prompt51 "general" zero "qwen3:32b" None).
  vm_compute in H. lia.
Qed.

(** C9 (amended): the snippet handed to the file log and to the database
    is the whole prompt when it has at most 50 characters, and otherwise
    its first 50 characters followed by "...", 53 characters in all; the
    two records depend on the prompt only through its first 50 characters
    and its length. *)
Theorem prompt_snippet_truncated
  (now : string) (round2 : float -> float) (prompt task_type : string)
  (confidence : float) (selected_model : string)
  (override_reason : option string) :
  let logged :=
    log_model_selection now round2 prompt task_type confidence
      selected_model override_reason in
  ld_prompt_preview (fst logged) = prompt_snippet (snd logged)
  /\ ((String.length prompt <= 50)%nat -> prompt_snippet (snd logged) = prompt)
  /\ ((50 < String.length prompt)%nat ->
      prompt_snippet (snd logged) = PyStr.take 50 prompt +:+ "..."
      /\ String.length (prompt_snippet (snd logged)) = 53%nat)
  /\ (String.length (prompt_snippet (snd logged)) <= 53)%nat
  /\ (forall prompt',
        PyStr.take 50 prompt' = PyStr.take 50 prompt ->
        String.length prompt' = String.length prompt ->
        log_model_selection now round2 prompt' task_type confidence
          selected_model override_reason = logged).
Proof.
  cbn zeta. unfold log_model_selection, log_model_selection_to_db. cbn [fst snd
    ld_prompt_preview prompt_snippet].
  split; [reflexivity |].
  split; [apply truncated_prompt_short |].
  split.
  { intros H. rewrite (truncated_prompt_long _ H). split; [reflexivity |].
    rewrite length_string_app, length_take. simpl String.length. lia. }
  split.
  { destruct (Nat.le_gt_cases (String.length prompt) 50) as [H|H].
    - rewrite (truncated_prompt_short _ H). lia.
    - rewrite (truncated_prompt_long _ H), length_string_app, length_take.
      simpl String.length. lia. }
  intros prompt' Htake Hlen.
  assert (Ht : truncated_prompt prompt' = truncated_prompt prompt).
  { destruct (Nat.le_gt_cases (String.length prompt) 50) as [H|H].
    - rewrite !truncated_prompt_short by lia.
      rewrite <- (take_all 50 prompt'), <- (take_all 50 prompt) by lia.
      exact Htake.
    - rewrite !truncated_prompt_long by lia. now rewrite Htake. }
  now rewrite Ht, Hlen.
Qed.

Lemma prompt_snippet_truncated_witness :
  prompt_snippet
    (snd (log_model_selection "2025-01-01T00:00:00" (fun x => x)
            Samples.prompt51 "general" zero "qwen3:32b" None))
  = "abcdefghijklmnopqrstuvwxyzabcdefghijklmnopqrstuvwx...".
Proof.
  apply (prompt_snippet_truncated "2025-01-01T00:00:00" (fun x => x)
           Samples.prompt51 "general" zero "qwen3:32b" None).
  vm_compute. lia.
Defined.

End DecisionRecord.

(* ------------------------------------------------------------------ *)
(** ** Temperature and the task type "general" *)

Section Temperature.

Import F64 LLM.

(** C10: for the task type "general" the prompt is not augmented (the same
    list of the same, untouched message objects comes back) and a caller
    temperature of 0 stays 0.0. *)
Theorem general_task_not_adapted (h : heap) (messages : list loc) :
  enhance_prompt_for_task h messages "general" = Ok (h, messages)
  /\ optimize_temperature "general" zero = zero
  /\ optimize_temperature "general" (of_Z 0) = zero.
Proof.
  split; [| split; reflexivity].
  unfold enhance_prompt_for_task. destruct messages; reflexivity.
Qed.

End Temperature.

(* ------------------------------------------------------------------ *)
(** ** Model selection: the override rules *)

Section Overrides.

Import F64 Classifier.

Lemma startswith_lower (n s : string) :
  PyStr.startswith n s = true ->
  PyStr.startswith (PyStr.lower n) (PyStr.lower s) = true.
Proof.
  revert s. induction n as [|a n IH]; intros [|b s]; simpl; try easy.
  destruct (Ascii.eqb_spec a b) as [->|]; [| discriminate].
  rewrite Ascii.eqb_refl. apply IH.
Qed.

Lemma contains_lower (n s : string) :
  PyStr.contains n s = true ->
  PyStr.contains (PyStr.lower n) (PyStr.lower s) = true.
Proof.
  induction s as [|b s IH]; simpl; rewrite !orb_true_iff.
  - intros [H|H]; [| discriminate]. left. exact (startswith_lower n "" H).
  - intros [H|H]; [left | right; auto].
    exact (startswith_lower n (String b s) H).
Qed.

Lemma startswith_app_l (a b s : string) :
  PyStr.startswith (a +:+ b) s = true -> PyStr.startswith a s = true.
Proof.
  revert s. induction a as [|c a IH]; intros [|d s]; simpl; try easy.
  destruct (Ascii.eqb c d); [apply IH | discriminate].
Qed.

Lemma contains_app_l (a b s : string) :
  PyStr.contains (a +:+ b) s = true -> PyStr.contains a s = true.
Proof.
  induction s as [|d s IH]; simpl; rewrite !orb_true_iff.
  - intros [H|H]; [| discriminate]. left. exact (startswith_app_l a b "" H).
  - intros [H|H]; [left | right; auto].
    exact (startswith_app_l a b (String d s) H).
Qed.

(** A prompt containing "debug this function" has, once lowered, the
    keyword "debug". *)
Lemma debug_this_function_is_coding (prompt : string) :
  PyStr.contains "debug this function" prompt = true ->
  PyStr.any_in coding_terms (PyStr.lower prompt) = true.
Proof.
  intros H. apply contains_lower in H.
  change (PyStr.lower "debug this function")
    with ("debug" +:+ " this function") in H.
  apply contains_app_l in H.
  unfold PyStr.any_in, coding_terms. cbn [existsb]. rewrite H.
  now rewrite !orb_true_r.
Qed.

(** C4: the override rules of get_model_for_task are tried in the order
    coding keywords, word count above 100, reasoning terms, base mapping,
    and the first that matches decides the model and the logged reason.  A
    prompt containing "debug this function" classified "general" gets the
    coding model for the reason coding_keywords_detected; a prompt of 150
    words classified "creative" and free of coding keywords gets the
    reasoning model for the reason long_complex_prompt. *)
Theorem override_rules_in_priority_order
  (get_embedding : string -> list float)
  (TASK_EMBEDDINGS : list (string * list float))
  (now : string) (round2 : float -> float)
  (prompt task_type : string) (confidence : float) :
  classify_task_with_embeddings get_embedding TASK_EMBEDDINGS prompt
    = Ok (task_type, confidence) ->
  let coding_keywords := PyStr.any_in coding_terms (PyStr.lower prompt) in
  let long_prompt := (100 <? length (PyStr.split prompt))%nat in
  let reasoning_words := PyStr.any_in reasoning_terms (PyStr.lower prompt) in
  let rule1 := negb (String.eqb task_type "coding") && coding_keywords in
  let rule2 := long_prompt && negb (String.eqb task_type "reasoning") in
  let rule3 := negb (String.eqb task_type "reasoning") && reasoning_words in
  let selection := model_and_reason task_type prompt in
  get_model_for_task get_embedding TASK_EMBEDDINGS now round2 prompt
    = Ok (fst selection,
          ModelSelectionLogger.log_model_selection now round2 prompt
            task_type confidence (fst selection) (snd selection))
  /\ (rule1 = true ->
      selection = (task_model "coding", Some "coding_keywords_detected"))
  /\ (rule1 = false -> rule2 = true ->
      selection = (task_model "reasoning", Some "long_complex_prompt"))
  /\ (rule1 = false -> rule2 = false -> rule3 = true ->
      selection = (task_model "reasoning", Some "reasoning_terms_detected"))
  /\ (rule1 = false -> rule2 = false -> rule3 = false ->
      selection = (default (task_model "general")
                     (dict_get TASK_MODELS task_type), None))
  /\ (PyStr.contains "debug this function" prompt = true ->
      task_type = "general" ->
      selection = ("qwen2.5-coder:32b-instruct-q8_0",
                   Some "coding_keywords_detected"))
  /\ (length (PyStr.split prompt) = 150%nat ->
      task_type = "creative" ->
      coding_keywords = false ->
      selection = ("mixtral:8x22b-instruct-v0.1-q4_K_M",
                   Some "long_complex_prompt")).
Proof.
  intros Hc. cbn zeta.
  split.
  { unfold get_model_for_task. rewrite Hc. cbn [mbind res_bind].
    now destruct (model_and_reason task_type prompt). }
  unfold model_and_reason.
  repeat split.
  - now intros ->.
  - now intros -> ->.
  - now intros -> -> ->.
  - intros -> -> ->. now destruct (dict_get TASK_MODELS task_type).
  - intros Hd ->. now rewrite (debug_this_function_is_coding _ Hd).
  - intros Hn -> Hk. now rewrite Hk, Hn.
Qed.

Lemma override_rules_in_priority_order_witness :
  fst (model_and_reason "general" "Please debug this function for me")
  = "qwen2.5-coder:32b-instruct-q8_0".
Proof.
  pose proof (override_rules_in_priority_order
                (fun _ => [of_Z 1]) [("general", [of_Z 1])]
                "2025-01-01T00:00:00" (fun x => x)
                "Please debug this function for me" "general" (of_Z 1)
                eq_refl) as H.
  cbn zeta in H.
  destruct H as (_ & _ & _ & _ & _ & H & _).
  now rewrite H.
Defined.

End Overrides.

(* ------------------------------------------------------------------ *)
(** ** prepare_params: the temperature *)

Section PreparedTemperature.

Import F64 LLM.

Lemma bind_ok {A B : Type} (r : res A) (k : A -> res B) (b : B) :
  (r ≫= k) = Ok b -> exists a, r = Ok a /\ k a = Ok b.
Proof. destruct r; simpl; [eauto | discriminate]. Qed.

Lemma Ok_inj {A : Type} (a b : A) : Ok a = Ok b -> a = b.
Proof. now intros [= ->]. Qed.

(** The temperature of the prepared parameters. *)
Lemma prepare_params_temperature
  (cfg : config) (h : heap) (rq : request) (h' : heap) (p : params) :
  prepare_params cfg h rq = Ok (h', p) ->
  p_temperature p =
    if mentions_anthropic (p_model p) && default false (enable_thinking rq)
    then of_Z 1
    else let o := optimize_temperature (task_type rq) (temperature rq) in
         if neqb o (temperature rq) then o else temperature rq.
Proof.
  unfold prepare_params. intros H.
  apply bind_ok in H as (mn & _ & H).
  apply bind_ok in H as ([h1 ms] & _ & H).
  repeat match type of H with
  | context [let '(_, _) := ?e in _] => destruct e as [? ?] eqn:?
  end.
  apply Ok_inj, pair_equal_spec in H. destruct H as [<- <-].
  unfold p_temperature, p_model. cbv beta iota.
  match goal with
  | E : (if ?c then _ else _) = (_, ?f) |- ?f = _ => destruct c
  end;
    match goal with
    | E : _ = (_, ?f) |- ?f = _ =>
        apply pair_equal_spec in E; destruct E as [_ <-]; reflexivity
    end.
Qed.

Lemma neqb_zero_false (t : float) :
  neqb t zero = false -> exists s, t = S754_zero s.
Proof.
  destruct t as [s|s| |s m e]; [eauto | destruct s; discriminate
                               | discriminate | destruct s; discriminate].
Qed.

(** As stated, the pass-through fails: with a Claude model and thinking
    switched on, a caller temperature of 0.3 is replaced by 1.0. *)
Lemma thinking_overrides_temperature :
  ~ (forall cfg h rq h' p,
        prepare_params cfg h rq = Ok (h', p) ->
        neqb (temperature rq) zero = true ->
        p_temperature p = temperature rq).
Proof.
  intros H.
  specialize (H Samples.cfg_openai Samples.heap2 Samples.thinking_request
                _ _ eq_refl eq_refl).
  vm_compute in H. discriminate H.
Qed.

(** C5 (amended): in the parameters prepare_params returns, the
    temperature is 1.0 when the effective model is an Anthropic or Claude
    model and thinking is enabled; otherwise a non-zero caller temperature
    is passed through unchanged, and a caller temperature of 0 becomes the
    default of the task (coding 0.1, reasoning 0.2, creative 0.8, chat 0.5)
    and stays as it is for any other task type. *)
Theorem temperature_respected_unless_thinking
  (cfg : config) (h : heap) (rq : request) (h' : heap) (p : params) :
  prepare_params cfg h rq = Ok (h', p) ->
  let thinking :=
    mentions_anthropic (p_model p) && default false (enable_thinking rq) in
  (thinking = true -> p_temperature p = of_Z 1)
  /\ (thinking = false -> neqb (temperature rq) zero = true ->
      p_temperature p = temperature rq)
  /\ (thinking = false -> neqb (temperature rq) zero = false ->
      (task_type rq = "coding" -> p_temperature p = lit 1 10)
      /\ (task_type rq = "reasoning" -> p_temperature p = lit 2 10)
      /\ (task_type rq = "creative" -> p_temperature p = lit 8 10)
      /\ (task_type rq = "chat" -> p_temperature p = lit 5 10)
      /\ (Classifier.dict_get task_temperatures (task_type rq) = None ->
          p_temperature p = temperature rq)).
Proof.
  intros H. cbn zeta. rewrite (prepare_params_temperature _ _ _ _ _ H).
  split; [now intros -> |].
  split.
  { intros -> Hnz. cbn zeta. unfold optimize_temperature. rewrite Hnz.
    now destruct (neqb (temperature rq) (temperature rq)). }
  intros -> Hz. cbn zeta. unfold optimize_temperature. rewrite Hz.
  destruct (neqb_zero_false _ Hz) as [s ->].
  repeat split; intros ->; reflexivity.
Qed.

Lemma temperature_respected_unless_thinking_witness :
  exists h' p,
    prepare_params Samples.cfg_openai Samples.heap2
      (Samples.with_task Samples.base_request "coding" zero) = Ok (h', p)
    /\ p_temperature p = lit 1 10.
Proof.
  eexists _, _. split; [reflexivity |].
  refine (proj1 (proj2 (proj2 (temperature_respected_unless_thinking
            Samples.cfg_openai Samples.heap2
            (Samples.with_task Samples.base_request "coding" zero)
            _ _ eq_refl)) eq_refl eq_refl) eq_refl).
Defined.

End PreparedTemperature.

(* ------------------------------------------------------------------ *)
(** ** make_llm_api_call: retries *)

Section Retries.

Import F64 LLM.

Variable cfg : config.
Variable acompletion : nat -> params -> outcome.

(** The run on a transport that answers every attempt with a rate-limit
    error. *)
Lemma attempts_rate_limited (errs : nat -> exc) (p : params) :
  (forall n, acompletion n p = Raised (errs n)) ->
  (forall n, is_RateLimitError (errs n) = true) ->
  forall (range : list nat) (last_error : option exc),
    attempts cfg acompletion range p last_error =
      (LLMRetryError
         (retry_error_msg
            (fold_left (fun _ n => Some (errs n)) range last_error)),
       flat_map (fun _ => [Call p; Sleep RATE_LIMIT_DELAY]) range).
Proof.
  intros Hraise Hrate. induction range as [|n range IH]; intros last_error.
  - reflexivity.
  - cbn [attempts]. rewrite Hraise, Hrate. cbn [orb].
    rewrite IH. unfold handle_error. rewrite Hrate. reflexivity.
Qed.

(** C3: when every attempt raises a rate-limit error, the call raises
    LLMRetryError after exactly MAX_RETRIES = 3 requests; the message of
    the error carries the text of the last error raised, and the backoff
    slept, 3 * 30 seconds, is at least (MAX_RETRIES - 1) * RATE_LIMIT_DELAY. *)
Theorem rate_limited_exhausts_retries
  (h : heap) (rq : request) (h' : heap) (p : params) (errs : nat -> exc) :
  prepare_params cfg h rq = Ok (h', p) ->
  (forall n, acompletion n p = Raised (errs n)) ->
  (forall n, is_RateLimitError (errs n) = true) ->
  exists evs,
    make_llm_api_call cfg acompletion h rq
      = Ok (h', (LLMRetryError
                   ("Failed to make API call after 3 attempts. Last error: "
                    +:+ exc_str (errs 2%nat)), evs))
    /\ calls evs = MAX_RETRIES
    /\ slept evs = (3 * RATE_LIMIT_DELAY)%Z
    /\ (Z.of_nat (MAX_RETRIES - 1) * RATE_LIMIT_DELAY <= slept evs)%Z.
Proof.
  intros Hp Hraise Hrate. unfold make_llm_api_call. rewrite Hp.
  cbn [mbind res_bind]. rewrite (attempts_rate_limited errs p Hraise Hrate).
  eexists. split; [reflexivity |]. repeat split. vm_compute. discriminate.
Qed.

End Retries.

Lemma rate_limited_exhausts_retries_witness :
  exists h' evs,
    LLM.make_llm_api_call Samples.cfg_openai Samples.always_rate_limited
      Samples.heap2 Samples.base_request
    = Ok (h', (LLM.LLMRetryError
                 "Failed to make API call after 3 attempts. Last error: Rate limit reached",
               evs))
    /\ LLM.slept evs = 90%Z.
Proof.
  destruct (rate_limited_exhausts_retries Samples.cfg_openai
              Samples.always_rate_limited Samples.heap2 Samples.base_request
              _ _ (fun _ => Samples.rate_limited) eq_refl
              (fun _ => eq_refl) (fun _ => eq_refl))
    as (evs & Hrun & _ & Hslept & _).
  eexists _, evs. split; [exact Hrun | exact Hslept].
Defined.

(* ------------------------------------------------------------------ *)
(** ** make_llm_api_call: the provider-prefix correction *)

Section ProviderCorrection.

Import F64 LLM.


Variable cfg : config.
Variable acompletion : nat -> params -> outcome.




End ProviderCorrection.


(* ------------------------------------------------------------------ *)
(** ** Prompt caching keeps hints, order and text *)

Section CacheHints.

Import F64 LLM.

Lemma preserved_refl (m : message) : preserved m m.
Proof. repeat split. intros i b Hi _. exact Hi. Qed.

Lemma preserved_trans (m1 m2 m3 : message) :
  preserved m1 m2 -> preserved m2 m3 -> preserved m1 m3.
Proof.
  intros (Hr & Ho & Ht & Hk) (Hr' & Ho' & Ht' & Hk').
  repeat split; try congruence.
  intros i b Hi Hb. apply Hk'; [| exact Hb]. now apply Hk.
Qed.

Lemma heap_preserved_refl (h : heap) : heap_preserved h h.
Proof. split; [reflexivity | intros l; apply preserved_refl]. Qed.

Lemma heap_preserved_trans (h1 h2 h3 : heap) :
  heap_preserved h1 h2 -> heap_preserved h2 h3 -> heap_preserved h1 h3.
Proof.
  intros [Hn H] [Hn' H']. split; [congruence |].
  intros l. exact (preserved_trans _ _ _ (H l) (H' l)).
Qed.

Lemma heap_preserved_set (h : heap) (l : loc) (m : message) :
  preserved (get h l) m -> heap_preserved h (set h l m).
Proof.
  intros H. split; [reflexivity |]. intros l'. unfold get, set. cbn [cells].
  destruct (Nat.eqb_spec l' l) as [->|]; [exact H | apply preserved_refl].
Qed.

Lemma preserved_wrapped (m : message) (s : string) :
  content m = Some (CStr s) -> preserved m (set_content m (wrapped s)).
Proof.
  intros Hc. repeat split.
  - unfold texts. now rewrite Hc.
  - intros i b Hi. unfold blocks in Hi. rewrite Hc in Hi. discriminate Hi.
Qed.

Lemma mark_first_texts (items : list item) :
  map item_text (mark_first items) = map item_text items.
Proof.
  induction items as [|[b|v] items IH]; cbn [mark_first map];
    [reflexivity | | now rewrite IH].
  destruct (is_text b && negb (has_cache_control b)); cbn [map];
    [reflexivity | now rewrite IH].
Qed.

Lemma mark_first_keeps (items : list item) :
  forall (i : nat) (b : block),
    items !! i = Some (IDict b) -> has_cache_control b = true ->
    mark_first items !! i = Some (IDict b).
Proof.
  induction items as [|[b0|v] items IH]; intros i b Hi Hb;
    [discriminate Hi | |].
  - cbn [mark_first].
    destruct (is_text b0 && negb (has_cache_control b0)) eqn:E.
    + destruct i as [|i]; [| exact Hi].
      injection Hi as ->. rewrite Hb, andb_false_r in E. discriminate E.
    + destruct i as [|i]; [exact Hi | apply IH; assumption].
  - cbn [mark_first]. destruct i as [|i]; [exact Hi | apply IH; assumption].
Qed.

Lemma mark_all_texts (items : list item) :
  map item_text (mark_all items) = map item_text items.
Proof.
  unfold mark_all. rewrite map_map. apply map_ext. intros [b|v]; [| reflexivity].
  now destruct (is_text b && negb (has_cache_control b)).
Qed.

Lemma mark_all_keeps (items : list item) (i : nat) (b : block) :
  items !! i = Some (IDict b) -> has_cache_control b = true ->
  mark_all items !! i = Some (IDict b).
Proof.
  intros Hi Hb. unfold mark_all. rewrite list_lookup_fmap, Hi. cbn.
  now rewrite Hb, andb_false_r.
Qed.

Lemma preserved_marked (m : message) (items : list item)
  (mark : list item -> list item) :
  content m = Some (CList items) ->
  map item_text (mark items) = map item_text items ->
  (forall i b, items !! i = Some (IDict b) -> has_cache_control b = true ->
               mark items !! i = Some (IDict b)) ->
  preserved m (set_content m (CList (mark items))).
Proof.
  intros Hc Ht Hk. repeat split.
  - unfold texts. rewrite Hc. exact Ht.
  - intros i b Hi Hb. unfold blocks in *. rewrite Hc in Hi.
    now apply Hk.
Qed.

Lemma cache_system_prompt_preserved (h : heap) (messages : list loc) :
  heap_preserved h (cache_system_prompt h messages).
Proof.
  unfold cache_system_prompt. destruct messages as [|l _];
    [apply heap_preserved_refl |].
  destruct (role_is (get h l) "system"); [| apply heap_preserved_refl].
  destruct (content (get h l)) as [[s|items|v]|] eqn:Hc;
    try apply heap_preserved_refl; apply heap_preserved_set.
  - now apply preserved_wrapped.
  - apply preserved_marked;
      [exact Hc | apply mark_first_texts | apply mark_first_keeps].
Qed.

Lemma apply_cache_control_preserved
  (h : heap) (messages : list loc) (idx : option nat) :
  heap_preserved h (apply_cache_control h messages idx).
Proof.
  unfold apply_cache_control. destruct idx as [i|];
    [| apply heap_preserved_refl].
  destruct (messages !! i) as [l|]; [| apply heap_preserved_refl].
  destruct (content (get h l)) as [[s|items|v]|] eqn:Hc;
    try apply heap_preserved_refl; apply heap_preserved_set.
  - now apply preserved_wrapped.
  - apply preserved_marked;
      [exact Hc | apply mark_all_texts | apply mark_all_keeps].
Qed.

Lemma apply_prompt_caching_preserved (h : heap) (messages : list loc) :
  heap_preserved h (apply_prompt_caching h messages).
Proof.
  unfold apply_prompt_caching.
  eapply heap_preserved_trans; [apply cache_system_prompt_preserved |].
  eapply heap_preserved_trans; [apply apply_cache_control_preserved |].
  eapply heap_preserved_trans; apply apply_cache_control_preserved.
Qed.

(** With the task type "auto" the only thing prepare_params does to the
    messages is the cache marking, and only for a Claude model. *)
Lemma prepare_params_auto_messages
  (cfg : config) (h : heap) (rq : request) (h' : heap) (p : params) :
  task_type rq = "auto" ->
  prepare_params cfg h rq = Ok (h', p) ->
  p_messages p = messages rq
  /\ h' = if mentions_anthropic (p_model p)
          then apply_prompt_caching h (messages rq) else h.
Proof.
  unfold prepare_params. intros Ht H. rewrite Ht in H.
  apply bind_ok in H as (mn & _ & H).
  cbn [String.eqb Ascii.eqb Bool.eqb negb mbind res_bind] in H.
  repeat match type of H with
  | context [let '(_, _) := ?e in _] => destruct e as [? ?] eqn:?
  end.
  apply Ok_inj, pair_equal_spec in H. destruct H as [<- <-].
  split; reflexivity.
Qed.

(** C6: a second run of the cache marking on the messages it has already
    marked leaves every block that carries a cache_control entry exactly as
    it is (no second entry, no overwritten entry), and keeps the roles, the
    other keys and the texts of every message in their order; the message
    list itself is the list passed in.  The same holds for prepare_params
    run twice with the default task type. *)
Theorem cache_marking_keeps_hints_and_text (h : heap) (ms : list loc) :
  (let h1 := apply_prompt_caching h ms in
   let h2 := apply_prompt_caching h1 ms in
   forall l,
     role (get h2 l) = role (get h1 l)
     /\ rest (get h2 l) = rest (get h1 l)
     /\ texts (get h2 l) = texts (get h1 l)
     /\ (forall i b,
           blocks (get h1 l) !! i = Some (IDict b) ->
           has_cache_control b = true ->
           blocks (get h2 l) !! i = Some (IDict b)))
  /\ (forall cfg rq h1 p1 h2 p2,
        messages rq = ms -> task_type rq = "auto" ->
        prepare_params cfg h rq = Ok (h1, p1) ->
        prepare_params cfg h1 rq = Ok (h2, p2) ->
        p_messages p1 = ms /\ p_messages p2 = ms
        /\ forall l, preserved (get h1 l) (get h2 l)).
Proof.
  split.
  - cbn zeta. intros l.
    exact (proj2 (apply_prompt_caching_preserved
                    (apply_prompt_caching h ms) ms) l).
  - intros cfg rq h1 p1 h2 p2 Hm Ht H1 H2.
    destruct (prepare_params_auto_messages _ _ _ _ _ Ht H1) as [Hp1 _].
    destruct (prepare_params_auto_messages _ _ _ _ _ Ht H2) as [Hp2 Hh2].
    split; [congruence | split; [congruence |]].
    intros l. subst h2. destruct (mentions_anthropic (p_model p2)).
    + apply apply_prompt_caching_preserved.
    + apply preserved_refl.
Qed.

Lemma cache_marking_keeps_hints_and_text_witness :
  exists h1 p1 h2 p2,
    prepare_params Samples.cfg_openai Samples.heap2 Samples.thinking_request
      = Ok (h1, p1)
    /\ prepare_params Samples.cfg_openai h1 Samples.thinking_request
      = Ok (h2, p2)
    /\ preserved (get h1 1%nat) (get h2 1%nat).
Proof.
  eexists _, _, _, _. split; [reflexivity |]. split; [reflexivity |].
  refine (proj2 (proj2 (proj2 (cache_marking_keeps_hints_and_text
            Samples.heap2 [0%nat; 1%nat]) Samples.cfg_openai
            Samples.thinking_request _ _ _ _ eq_refl eq_refl eq_refl eq_refl))
            1%nat).
Defined.

(** The marking is not a fixed point after one run: on a system prompt of
    several text blocks each run hints one more block. *)
Lemma second_run_hints_next_system_block :
  let h1 := apply_prompt_caching Samples.heap_two_blocks [0%nat] in
  let h2 := apply_prompt_caching h1 [0%nat] in
  map carries (blocks (get h1 0%nat)) = [true; false]
  /\ map carries (blocks (get h2 0%nat)) = [true; true].
Proof. split; reflexivity. Qed.

End CacheHints.

(* ------------------------------------------------------------------ *)
(** ** Prompt augmentation *)

Section Augmentation.

Import F64 LLM.

(** [find_system] returns the first message of role "system". *)
Lemma find_system_first (h : heap) (ms : list loc) (i : nat) (l : loc) :
  ms !! i = Some l ->
  role_is (get h l) "system" = true ->
  (forall j l', (j < i)%nat -> ms !! j = Some l' ->
                role_is (get h l') "system" = false) ->
  find_system h ms = Some l.
Proof.
  revert i. induction ms as [|l0 ms IH]; intros i Hi Hs Hbefore;
    [discriminate Hi |].
  cbn [find_system]. destruct i as [|i].
  - injection Hi as ->. now rewrite Hs.
  - rewrite (Hbefore 0%nat l0) by (reflexivity || lia).
    apply (IH i); [exact Hi | exact Hs |].
    intros j l' Hj Hl'. apply (Hbefore (S j) l'); [lia | exact Hl'].
Qed.

Lemma find_system_none (h : heap) (ms : list loc) :
  Forall (fun l => role_is (get h l) "system" = false) ms ->
  find_system h ms = None.
Proof.
  induction 1 as [|l ms Hl _ IH]; [reflexivity |].
  cbn [find_system]. now rewrite Hl.
Qed.

Lemma known_task_instruction (task_type : string) :
  In task_type known_task_types ->
  existsb (String.eqb task_type) known_task_types = true
  /\ exists instruction,
       Classifier.dict_get task_instructions task_type = Some instruction.
Proof.
  intros [<-|[<-|[<-|[<-|[]]]]]; (split; [reflexivity | eexists; reflexivity]).
Qed.

(** The list [enhance_prompt_for_task] returns is the list it was given,
    with or without one new reference in front. *)
Lemma enhance_result_list
  (h : heap) (ms : list loc) (task_type : string) (h1 : heap) (em : list loc) :
  enhance_prompt_for_task h ms task_type = Ok (h1, em) ->
  em = ms \/ em = next_loc h :: ms.
Proof.
  unfold enhance_prompt_for_task.
  destruct (_ || _); [intros [= _ ->]; now left |].
  destruct (find_system h ms) as [l|].
  - intros H. apply bind_ok in H as (cur & _ & H).
    destruct (Classifier.dict_get _ _); [| discriminate H].
    injection H as _ ->. now left.
  - destruct (Classifier.dict_get _ _); [| discriminate].
    cbn [alloc]. intros [= _ <-]. now right.
Qed.

(** With a task type other than "auto", the messages of the prepared
    parameters are the list [enhance_prompt_for_task] returned. *)
Lemma prepare_params_enhanced
  (cfg : config) (h : heap) (rq : request) (h' : heap) (p : params) :
  task_type rq <> "auto" ->
  prepare_params cfg h rq = Ok (h', p) ->
  exists h1,
    enhance_prompt_for_task h (messages rq) (task_type rq)
      = Ok (h1, p_messages p).
Proof.
  unfold prepare_params. intros Ht H.
  apply bind_ok in H as (mn & _ & H).
  apply bind_ok in H as ([h1 ms] & He & H).
  destruct (String.eqb_spec (task_type rq) "auto") as [|_]; [contradiction |].
  cbn [negb] in He. apply bind_ok in He as ([h2 em] & He & Hl).
  apply Ok_inj, pair_equal_spec in Hl. destruct Hl as [<- <-].
  repeat match type of H with
  | context [let '(_, _) := ?e in _] => destruct e as [? ?] eqn:?
  end.
  apply Ok_inj, pair_equal_spec in H. destruct H as [_ <-].
  unfold p_messages. cbv beta iota. exists h2. rewrite He. do 2 f_equal.
  destruct (enhance_result_list _ _ _ _ _ He) as [-> | ->].
  - now destruct (lists_differ _ _ _).
  - unfold lists_differ. rewrite bool_decide_eq_false_2; [reflexivity |].
    intros Hv. apply (f_equal (@length message)) in Hv.
    unfold view in Hv. rewrite !length_map in Hv. cbn [length] in Hv. lia.
Qed.

(** As stated, the claim fails on the empty message list: no system
    message is inserted, the empty list comes back. *)
Lemma empty_messages_not_augmented :
  ~ (forall h ms task_type,
        In task_type known_task_types ->
        find_system h ms = None ->
        exists h' l, enhance_prompt_for_task h ms task_type = Ok (h', l :: ms)).
Proof.
  intros H.
  destruct (H Samples.heap2 [] "coding") as (h' & l & Hl);
    [now left | reflexivity |].
  discriminate Hl.
Qed.

(** C7 (amended): for a task type among coding, reasoning, creative and
    chat, and a message list that is not empty: when a system message
    exists and the content of the first one is a string (or is absent,
    read as the empty string), the instruction of the task is appended to
    that content after a separator (a space, preceded by a full stop when
    the content does not end with one), the list returned holds the same
    messages in the same order and no other message object changes;
    when no system message exists, a new system message holding the
    instruction is put at position 0 before the unchanged messages.  The
    empty message list is returned as it is. *)
Theorem augmentation_appends_or_inserts
  (h : heap) (ms : list loc) (task_type : string) :
  In task_type known_task_types ->
  exists instruction,
    Classifier.dict_get task_instructions task_type = Some instruction
    /\ (ms = [] -> enhance_prompt_for_task h ms task_type = Ok (h, []))
    /\ (forall i l current_content,
          ms !! i = Some l ->
          role_is (get h l) "system" = true ->
          (forall j l', (j < i)%nat -> ms !! j = Some l' ->
                        role_is (get h l') "system" = false) ->
          content (get h l) = Some (CStr current_content)
          \/ (content (get h l) = None /\ current_content = "") ->
          exists h',
            enhance_prompt_for_task h ms task_type = Ok (h', ms)
            /\ get h' l =
                 set_content (get h l)
                   (CStr (with_separator current_content +:+ instruction))
            /\ (forall l', l' <> l -> get h' l' = get h l')
            /\ next_loc h' = next_loc h)
    /\ (ms <> [] ->
        Forall (fun l => role_is (get h l) "system" = false) ms ->
        Forall (fun l => (l < next_loc h)%nat) ms ->
        exists h',
          enhance_prompt_for_task h ms task_type = Ok (h', next_loc h :: ms)
          /\ view h' (next_loc h :: ms) =
               {| role := Some "system";
                  content := Some (CStr instruction);
                  rest := [] |} :: view h ms).
Proof.
  intros Hknown.
  destruct (known_task_instruction _ Hknown) as (Hk & instruction & Hinstr).
  exists instruction. split; [exact Hinstr |]. split; [| split].
  - now intros ->.
  - intros i l cur Hi Hs Hbefore Hcontent.
    unfold enhance_prompt_for_task. rewrite Hk.
    destruct ms as [|l0 ms']; [discriminate Hi |]. cbn [negb orb].
    rewrite (find_system_first h _ i l Hi Hs Hbefore).
    assert (Hcur : match content (get h l) with
                   | None => Ok EmptyString
                   | Some (CStr s) => Ok s
                   | Some _ => Raise AttributeError
                   end = Ok cur).
    { destruct Hcontent as [-> | [-> ->]]; reflexivity. }
    rewrite Hcur. cbn [mbind res_bind]. rewrite Hinstr.
    eexists. split; [reflexivity |]. unfold get, set. cbn [cells next_loc].
    split; [now rewrite Nat.eqb_refl |]. split; [| reflexivity].
    intros l' Hne. now destruct (Nat.eqb_spec l' l).
  - intros Hne Hnone Hwf.
    unfold enhance_prompt_for_task. rewrite Hk.
    destruct ms as [|l0 ms']; [contradiction |]. cbn [negb orb].
    rewrite (find_system_none h _ Hnone), Hinstr. cbn [alloc].
    eexists. split; [reflexivity |].
    unfold view. rewrite map_cons. f_equal.
    { unfold get. cbn [cells]. now rewrite Nat.eqb_refl. }
    apply map_ext_in. intros l Hl. rewrite Forall_forall in Hwf.
    apply list_elem_of_In, Hwf in Hl. unfold get. cbn [cells].
    destruct (Nat.eqb_spec l (next_loc h)); [lia | reflexivity].
Qed.

Lemma augmentation_appends_or_inserts_witness :
  exists h',
    enhance_prompt_for_task Samples.heap2 [0%nat; 1%nat] "coding"
      = Ok (h', [0%nat; 1%nat])
    /\ content (get h' 0%nat) =
         Some (CStr ("Be brief. "
                     +:+ default "" (Classifier.dict_get task_instructions "coding")))
    /\ get h' 1%nat = Samples.user_msg.
Proof.
  destruct (augmentation_appends_or_inserts Samples.heap2 [0%nat; 1%nat]
              "coding" (or_introl eq_refl))
    as (instruction & Hi & _ & Happend & _).
  destruct (Happend 0%nat 0%nat "Be brief" eq_refl eq_refl
              ltac:(intros j l' Hj; lia) (or_introl eq_refl))
    as (h' & Hrun & Hsys & Hother & _).
  exists h'. split; [exact Hrun |]. split.
  - rewrite Hsys. injection Hi as <-. reflexivity.
  - now rewrite (Hother 1%nat).
Defined.

(** C8: the prompt augmentation writes into the caller's own system
    message.  On a request to a model that is no Claude model (so that no
    cache hint is involved), with the task type "coding", the message
    object at reference 0 of the caller's list reads differently after
    prepare_params than before. *)
Theorem enhancement_mutates_callers_message :
  exists h' p,
    prepare_params Samples.cfg_openai Samples.heap2
      (Samples.with_task Samples.base_request "coding" (lit 3 10))
      = Ok (h', p)
    /\ mentions_anthropic (p_model p) = false
    /\ p_messages p = [0%nat; 1%nat]
    /\ content (get Samples.heap2 0%nat) = Some (CStr "Be brief")
    /\ content (get h' 0%nat) =
         Some (CStr ("Be brief. You are an expert programmer. Provide clean, efficient, and well-documented code. "
                     +:+ "Focus on best practices, security, and performance. Include error handling "
                     +:+ "and explain your implementation choices. Be precise and thorough."))
    /\ view h' [0%nat; 1%nat] <> view Samples.heap2 [0%nat; 1%nat].
Proof.
  eexists _, _. split; [reflexivity |].
  repeat split. intros H. vm_compute in H. discriminate H.
Qed.

End Augmentation.

(* ================================================================== *)
(** * Further properties of the embedded code *)

(* ------------------------------------------------------------------ *)
(** ** The classifier: results and errors *)

Section ClassifierResults.

Import F64 Classifier.





Lemma similarities_keys (table : list (string * list float))
  (v : list float) (sims : list (string * float)) :
  similarities table v = Ok sims -> map fst sims = map fst table.
Proof.
  unfold similarities. revert sims.
  induction table as [|[k w] table IH]; intros sims; cbn.
  - now intros [= <-].
  - destruct (cosine_similarity v w) as [s|e]; cbn; [| discriminate].
    destruct (mapM _ table) as [rest|e]; cbn; [| discriminate].
    intros [= <-]. cbn. f_equal. now apply IH.
Qed.



Lemma In_insert_by (x y : string * float) (l : list (string * float)) :
  In y (insert_by x l) <-> x = y \/ In y l.
Proof.
  induction l as [|z l IH]; cbn; [tauto |].
  destruct (ltb (snd x) (snd z)); cbn; [tauto | rewrite IH; tauto].
Qed.

Lemma In_stable_sort (y : string * float) (l : list (string * float)) :
  In y (stable_sort l) <-> In y l.
Proof.
  unfold stable_sort.
  assert (H : forall acc, In y (fold_left (fun acc x => insert_by x acc) l acc)
                          <-> In y acc \/ In y l).
  { induction l as [|x l IH]; intros acc; cbn; [tauto |].
    rewrite IH, In_insert_by. tauto. }
  rewrite H. cbn. tauto.
Qed.

Lemma In_sorted_reverse (y : string * float) (l : list (string * float)) :
  In y (sorted_reverse l) <-> In y l.
Proof.
  unfold sorted_reverse. now rewrite <- in_rev, In_stable_sort, <- in_rev.
Qed.



Lemma dampen_category (sorted : list (string * float)) (best : string)
  (confidence : float) (t : string) (c : float) :
  dampen sorted best confidence = Ok (t, c) -> t = "general" \/ t = best.
Proof.
  unfold dampen. destruct sorted as [|x [|[k2 s2] rest]];
    try (intros [= <- _]; now right).
  destruct (dict_get confidence_thresholds best); [| discriminate].
  destruct (ltb confidence f); [| intros [= <- _]; now right].
  destruct (_ && _); intros [= <- _]; [now left | now right].
Qed.

(** X1: whatever classify_task_with_embeddings returns, the category is
    "general" or one of the keys of TASK_EMBEDDINGS, and a category other
    than "general" never comes with a confidence below 0.55. *)
Theorem classification_category_and_floor
  (get_embedding : string -> list float)
  (TASK_EMBEDDINGS : list (string * list float))
  (prompt task_type : string) (confidence : float) :
  classify_task_with_embeddings get_embedding TASK_EMBEDDINGS prompt
    = Ok (task_type, confidence) ->
  (task_type = "general" \/ In task_type (map fst TASK_EMBEDDINGS))
  /\ (task_type <> "general" -> ltb confidence (lit 55 100) = false).
Proof.
  unfold classify_task_with_embeddings. intros H.
  destruct (similarities TASK_EMBEDDINGS (get_embedding prompt))
    as [sims|e] eqn:Hs; [| discriminate H].
  cbn [mbind res_bind] in H.
  destruct (sorted_reverse sims) as [|[best s] rest] eqn:Hsorted;
    [discriminate H |].
  destruct (dampen _ best (to_confidence s)) as [[t c]|e] eqn:Hd;
    [| discriminate H].
  cbn [mbind res_bind] in H.
  assert (Hbest : In best (map fst TASK_EMBEDDINGS)).
  { rewrite <- (similarities_keys _ _ _ Hs).
    apply (in_map fst _ (best, s)). apply In_sorted_reverse.
    rewrite Hsorted. now left. }
  destruct (ltb c (lit 55 100)) eqn:Hfloor.
  - injection H as <- <-. split; [now left | congruence].
  - injection H as <- <-. split; [| intros _; exact Hfloor].
    destruct (dampen_category _ _ _ _ _ Hd) as [-> | ->];
      [now left | now right].
Qed.

Lemma classification_category_and_floor_witness :
  In "coding" ["coding"; "general"].
Proof.
  destruct (classification_category_and_floor
              (fun _ => [of_Z 1; of_Z 2])
              [("coding", [of_Z 1; of_Z 2]); ("general", [of_Z 1; of_Z 0])]
              "x" "coding" (S754_finite false 9007199254740991 (-53))
              eq_refl) as [[H|H] _]; [discriminate H | exact H].
Defined.



End ClassifierResults.

(* ------------------------------------------------------------------ *)
(** ** The fallback embedding *)

Section FallbackEmbedding.

Import F64 Classifier.

Lemma length_add_at (v : list float) (position : nat) (w : float) :
  length (add_at v position w) = length v.
Proof.
  revert position. induction v as [|x v IH]; intros [|position]; cbn;
    try reflexivity.
  now rewrite IH.
Qed.

Lemma length_weigh (hash : string -> Z) (words : list string) :
  forall (i : nat) (v : list float),
    length (weigh hash words i v) = length v.
Proof.
  induction words as [|word words IH]; intros i v; cbn [weigh];
    [reflexivity |].
  now rewrite IH, length_add_at.
Qed.

(** X3: whatever the text and the hash function, the fallback embedding
    has exactly 100 components. *)
Theorem fallback_embedding_dimension (hash : string -> Z) (text : string) :
  length (fallback_embedding hash text) = 100%nat.
Proof.
  unfold fallback_embedding.
  destruct (ltb zero _); rewrite ?length_map, length_weigh;
    apply repeat_length.
Qed.

Lemma is_space_lower_char (c : ascii) :
  PyStr.is_space (PyStr.lower_char c) = PyStr.is_space c.
Proof. destruct c as [[] [] [] [] [] [] [] []]; reflexivity. Qed.

Lemma split_from_blank (s : string) :
  (forall c, In c (list_ascii_of_string s) -> PyStr.is_space c = true) ->
  PyStr.split_from "" (PyStr.lower s) = [].
Proof.
  induction s as [|c s IH]; intros H; [reflexivity |].
  cbn [PyStr.lower PyStr.split_from].
  rewrite is_space_lower_char, (H c) by now left.
  cbn [PyStr.flush]. apply IH. intros c' Hc'. apply H. now right.
Qed.

(** X4: a prompt made of blanks only (the empty prompt included) has no
    words, and its fallback embedding is the zero vector, left
    unnormalised because its norm is not above 0. *)
Theorem fallback_embedding_blank (hash : string -> Z) (text : string) :
  (forall c, In c (list_ascii_of_string text) -> PyStr.is_space c = true) ->
  fallback_embedding hash text = repeat zero 100.
Proof.
  intros H. unfold fallback_embedding, PyStr.split.
  rewrite (split_from_blank text H). reflexivity.
Qed.

Lemma fallback_embedding_blank_witness :
  Classifier.fallback_embedding (fun _ => 7%Z) "   " = repeat zero 100.
Proof.
  apply fallback_embedding_blank. intros c [<-|[<-|[<-|[]]]]; reflexivity.
Defined.

End FallbackEmbedding.

(* ------------------------------------------------------------------ *)
(** ** Model selection: what can be selected *)

Section Selection.

Import F64 Classifier.

Lemma lower_char_idempotent (c : ascii) :
  PyStr.lower_char (PyStr.lower_char c) = PyStr.lower_char c.
Proof. destruct c as [[] [] [] [] [] [] [] []]; reflexivity. Qed.

Lemma lower_idempotent (s : string) : PyStr.lower (PyStr.lower s) = PyStr.lower s.
Proof.
  induction s as [|c s IH]; cbn; [reflexivity |].
  now rewrite lower_char_idempotent, IH.
Qed.

Lemma length_flush (cur : string) (k : list string) :
  length (PyStr.flush cur k)
  = ((if String.eqb cur "" then 0 else 1) + length k)%nat.
Proof. destruct cur; reflexivity. Qed.

Lemma length_split_from_lower (s : string) :
  forall cur cur',
    String.eqb cur "" = String.eqb cur' "" ->
    length (PyStr.split_from cur (PyStr.lower s))
    = length (PyStr.split_from cur' s).
Proof.
  induction s as [|c s IH]; intros cur cur' H;
    cbn [PyStr.lower PyStr.split_from].
  - now rewrite !length_flush, H.
  - rewrite is_space_lower_char. destruct (PyStr.is_space c).
    + rewrite !length_flush, H. f_equal. now apply IH.
    + now apply IH.
Qed.

(** X5: the model get_model_for_task selects is always one of the four
    models of TASK_MODELS, whatever the classification says (an unknown
    category falls back to the general model), and an override reason is
    given exactly when the model is not the one of the base mapping rule. *)
Theorem selected_model_is_configured (task_type prompt : string) :
  let selection := model_and_reason task_type prompt in
  In (fst selection) (map snd TASK_MODELS)
  /\ fst selection <> ""
  /\ (snd selection = None ->
      fst selection = default "qwen3:32b" (dict_get TASK_MODELS task_type))
  /\ (snd selection <> None ->
      (fst selection = "qwen2.5-coder:32b-instruct-q8_0"
       /\ task_type <> "coding")
      \/ (fst selection = "mixtral:8x22b-instruct-v0.1-q4_K_M"
          /\ task_type <> "reasoning")).
Proof.
  cbn zeta. unfold model_and_reason.
  set (base := match dict_get TASK_MODELS task_type with
               | Some m => m
               | None => task_model "general"
               end).
  assert (Hbase : In base (map snd TASK_MODELS) /\ base <> ""
                  /\ base = default "qwen3:32b" (dict_get TASK_MODELS task_type)).
  { subst base. unfold TASK_MODELS. cbn [dict_get].
    repeat (destruct (String.eqb _ task_type);
            [cbn; repeat split; [tauto | discriminate] |]).
    cbn; repeat split; [tauto | discriminate]. }
  assert (Hne : forall k, negb (String.eqb task_type k) = true -> task_type <> k).
  { intros k Hk ->. now rewrite String.eqb_refl in Hk. }
  destruct (negb (String.eqb task_type "coding") && _) eqn:R1.
  { apply andb_true_iff in R1 as [Hc _]. cbn [fst snd].
    split; [cbn; tauto |]. split; [discriminate |]. split; [discriminate |].
    intros _. left. split; [reflexivity | now apply Hne]. }
  destruct (_ && negb (String.eqb task_type "reasoning")) eqn:R2.
  { apply andb_true_iff in R2 as [_ Hr]. cbn [fst snd].
    split; [cbn; tauto |]. split; [discriminate |]. split; [discriminate |].
    intros _. right. split; [reflexivity | now apply Hne]. }
  destruct (negb (String.eqb task_type "reasoning") && _) eqn:R3.
  { apply andb_true_iff in R3 as [Hr _]. cbn [fst snd].
    split; [cbn; tauto |]. split; [discriminate |]. split; [discriminate |].
    intros _. right. split; [reflexivity | now apply Hne]. }
  cbn [fst snd]. destruct Hbase as (Hin & Hnz & Hdef).
  split; [exact Hin |]. split; [exact Hnz |]. split; [intros _; exact Hdef |].
  intros H. now contradiction H.
Qed.

Lemma selected_model_is_configured_witness :
  fst (model_and_reason "poetry" "write me a sonnet") = "qwen3:32b".
Proof.
  exact (proj1 (proj2 (proj2 (selected_model_is_configured "poetry"
           "write me a sonnet"))) eq_refl).
Defined.

(** X6: the selection does not depend on the case of the letters of the
    prompt: lowering the prompt changes neither the model nor the reason. *)
Theorem selection_ignores_case (task_type prompt : string) :
  model_and_reason task_type (PyStr.lower prompt)
  = model_and_reason task_type prompt.
Proof.
  unfold model_and_reason, PyStr.split.
  now rewrite lower_idempotent, (length_split_from_lower prompt "" "").
Qed.

End Selection.

(* ------------------------------------------------------------------ *)
(** ** optimize_temperature *)

Section OptimizedTemperature.

Import F64 LLM.

(** X7: optimize_temperature settles after one application: applied to its
    own result, for the same task, it returns that result. *)
Theorem optimize_temperature_idempotent (task_type : string) (t : float) :
  optimize_temperature task_type
    (optimize_temperature task_type t)
  = optimize_temperature task_type t.
Proof.
  unfold optimize_temperature.
  destruct (neqb t zero) eqn:Ht.
  - now rewrite Ht.
  - unfold task_temperatures. cbn [Classifier.dict_get].
    repeat (destruct (String.eqb _ task_type); [reflexivity |]).
    reflexivity.
Qed.

End OptimizedTemperature.

(* ------------------------------------------------------------------ *)
(** ** Prompt augmentation: structured content and repetition *)

Section AugmentationEdges.

Import F64 LLM.

(** X8: for a task type among coding, reasoning, creative and chat, when
    the content of the first system message is present but is not a string
    (a list of blocks, as left by the cache marking, or None),
    enhance_prompt_for_task raises AttributeError and returns nothing. *)
Theorem augmentation_rejects_structured_content
  (h : heap) (ms : list loc) (task_type : string)
  (i : nat) (l : loc) (c : content_value) :
  In task_type known_task_types ->
  ms !! i = Some l ->
  role_is (get h l) "system" = true ->
  (forall j l', (j < i)%nat -> ms !! j = Some l' ->
                role_is (get h l') "system" = false) ->
  content (get h l) = Some c ->
  (forall s, c <> CStr s) ->
  enhance_prompt_for_task h ms task_type = Raise AttributeError.
Proof.
  intros Hknown Hi Hs Hbefore Hc Hnot.
  destruct (known_task_instruction _ Hknown) as (Hk & _).
  unfold enhance_prompt_for_task. rewrite Hk.
  destruct ms as [|l0 ms']; [discriminate Hi |]. cbn [negb orb].
  rewrite (find_system_first h _ i l Hi Hs Hbefore), Hc.
  destruct c as [s|items|v]; [now contradiction (Hnot s) | reflexivity
                             | reflexivity].
Qed.

Lemma augmentation_rejects_structured_content_witness :
  enhance_prompt_for_task Samples.heap_two_blocks [0%nat] "chat"
  = Raise AttributeError.
Proof.
  apply (augmentation_rejects_structured_content Samples.heap_two_blocks
           [0%nat] "chat" 0%nat 0%nat
           (CList [Samples.plain_block "Be brief"; Samples.plain_block "Be kind"]));
    try reflexivity.
  - cbn. tauto.
  - intros j l' Hj. lia.
  - intros s. discriminate.
Defined.

Lemma find_system_roles (h h' : heap) (ms : list loc) :
  (forall l, role (get h' l) = role (get h l)) ->
  find_system h' ms = find_system h ms.
Proof.
  intros H. induction ms as [|l ms IH]; [reflexivity |].
  cbn [find_system]. unfold role_is. now rewrite H, IH.
Qed.

Lemma endswith_char_app (c : ascii) (a b : string) :
  b <> "" ->
  PyStr.endswith_char c (a +:+ b) = PyStr.endswith_char c b.
Proof.
  intros Hb. induction a as [|x a IH]; [reflexivity |].
  rewrite <- IH. change (String x a +:+ b) with (String x (a +:+ b)).
  destruct (a +:+ b) eqn:E; [| reflexivity].
  destruct a; [now contradiction Hb | discriminate E].
Qed.

Lemma instruction_ends_with_full_stop (task_type instruction : string) :
  Classifier.dict_get task_instructions task_type = Some instruction ->
  instruction <> "" /\ PyStr.endswith_char "."%char instruction = true.
Proof.
  unfold task_instructions. cbn [Classifier.dict_get].
  repeat (destruct (String.eqb _ task_type);
          [intros [= <-]; split; [discriminate | reflexivity] |]).
  discriminate.
Qed.

(** X9: prompt augmentation is not idempotent: a second call on the same
    messages appends the instruction a second time, after a single space,
    to the content the first call produced. *)
Theorem augmentation_accumulates
  (h : heap) (ms : list loc) (task_type : string)
  (i : nat) (l : loc) (current_content : string) :
  In task_type known_task_types ->
  ms !! i = Some l ->
  role_is (get h l) "system" = true ->
  (forall j l', (j < i)%nat -> ms !! j = Some l' ->
                role_is (get h l') "system" = false) ->
  content (get h l) = Some (CStr current_content) ->
  exists instruction h1 h2,
    Classifier.dict_get task_instructions task_type = Some instruction
    /\ enhance_prompt_for_task h ms task_type = Ok (h1, ms)
    /\ enhance_prompt_for_task h1 ms task_type = Ok (h2, ms)
    /\ content (get h1 l) =
         Some (CStr (with_separator current_content +:+ instruction))
    /\ content (get h2 l) =
         Some (CStr (((with_separator current_content +:+ instruction)
                      +:+ " ") +:+ instruction)).
Proof.
  intros Hknown Hi Hs Hbefore Hc.
  destruct (known_task_instruction _ Hknown) as (Hk & instruction & Hinstr).
  destruct (instruction_ends_with_full_stop _ _ Hinstr) as [Hne Hdot].
  exists instruction.
  assert (Hrun : forall (g : heap) (s : string),
             (forall l', role (get g l') = role (get h l')) ->
             content (get g l) = Some (CStr s) ->
             enhance_prompt_for_task g ms task_type
             = Ok (set g l (set_content (get g l)
                              (CStr (with_separator s +:+ instruction))), ms)).
  { intros g s Hroles Hg. unfold enhance_prompt_for_task. rewrite Hk.
    destruct ms as [|l0 ms']; [discriminate Hi |]. cbn [negb orb].
    rewrite (find_system_roles h g _ Hroles),
      (find_system_first h _ i l Hi Hs Hbefore), Hg.
    cbn [mbind res_bind]. now rewrite Hinstr. }
  set (first := with_separator current_content +:+ instruction).
  set (h1 := set h l (set_content (get h l) (CStr first))).
  assert (Hc1 : content (get h1 l) = Some (CStr first)).
  { unfold h1, get, set. cbn [cells]. now rewrite Nat.eqb_refl. }
  assert (Hroles : forall l', role (get h1 l') = role (get h l')).
  { intros l'. unfold h1, get, set. cbn [cells].
    destruct (Nat.eqb_spec l' l) as [->|]; reflexivity. }
  exists h1, (set h1 l (set_content (get h1 l)
                          (CStr (with_separator first +:+ instruction)))).
  split; [exact Hinstr |].
  split; [exact (Hrun h current_content (fun _ => eq_refl) Hc) |].
  split; [exact (Hrun h1 first Hroles Hc1) |].
  split; [exact Hc1 |].
  unfold get at 1. unfold set at 1. cbn [cells]. rewrite Nat.eqb_refl.
  cbn [content set_content]. do 3 f_equal. unfold with_separator at 1.
  unfold first at 1. now rewrite (endswith_char_app _ _ _ Hne), Hdot.
Qed.

Lemma augmentation_accumulates_witness :
  exists h1 h2,
    enhance_prompt_for_task Samples.heap2 [0%nat; 1%nat] "chat"
      = Ok (h1, [0%nat; 1%nat])
    /\ enhance_prompt_for_task h1 [0%nat; 1%nat] "chat"
      = Ok (h2, [0%nat; 1%nat])
    /\ content (get h2 0%nat) <> content (get h1 0%nat).
Proof.
  destruct (augmentation_accumulates Samples.heap2 [0%nat; 1%nat] "chat"
              0%nat 0%nat "Be brief")
    as (instruction & h1 & h2 & Hi & H1 & H2 & Hc1 & Hc2);
    try reflexivity.
  - cbn. tauto.
  - intros j l' Hj. lia.
  - exists h1, h2. split; [exact H1 |]. split; [exact H2 |].
    rewrite Hc1, Hc2. injection Hi as <-. intros H. vm_compute in H.
    discriminate H.
Defined.

End AugmentationEdges.

(* ------------------------------------------------------------------ *)
(** ** prepare_params: the parameters built *)

Section PreparedParameters.

Import F64 LLM.

(** Opens a successful run of prepare_params: the selected model name,
    the heap and list after enhancement, and one equation per pair of
    parameters computed together. *)
Ltac open_prepare_params H :=
  unfold prepare_params in H;
  let mn := fresh "mn" in
  let h1 := fresh "h1" in
  let ms1 := fresh "ms1" in
  let Hsel := fresh "Hsel" in
  let Henh := fresh "Henh" in
  apply bind_ok in H as (mn & Hsel & H);
  apply bind_ok in H as ([h1 ms1] & Henh & H);
  repeat match type of H with
  | context [let '(_, _) := ?e in _] => destruct e as [? ?] eqn:?
  end;
  apply Ok_inj, pair_equal_spec in H; destruct H as [<- <-].

Lemma startswith_refl_app (n b : string) : PyStr.startswith n (n +:+ b) = true.
Proof.
  induction n as [|c n IH]; [reflexivity |].
  change (String c n +:+ b) with (String c (n +:+ b)).
  cbn [PyStr.startswith]. now rewrite Ascii.eqb_refl.
Qed.

Lemma contains_app_r (n a s : string) :
  PyStr.contains n s = true -> PyStr.contains n (a +:+ s) = true.
Proof.
  intros H. induction a as [|c a IH]; [exact H |].
  change (String c a +:+ s) with (String c (a +:+ s)).
  cbn [PyStr.contains]. rewrite IH. apply orb_true_r.
Qed.

Lemma contains_middle (n a b : string) :
  PyStr.contains n (a +:+ n +:+ b) = true.
Proof.
  apply contains_app_r. destruct (n +:+ b) eqn:E; cbn [PyStr.contains];
    rewrite <- E, startswith_refl_app; reflexivity.
Qed.

(** X10: whenever one of the four provider keys is configured, or the
    model is treated as an Ollama model, the model name handed on carries a
    provider prefix (it contains a slash); and a model treated as an Ollama
    model is named "ollama/..." with provider "ollama". *)
Theorem prepared_model_has_provider
  (cfg : config) (h : heap) (rq : request) (h' : heap) (p : params) :
  prepare_params cfg h rq = Ok (h', p) ->
  (PyStr.truthy (OPENAI_API_KEY cfg) || PyStr.truthy (ANTHROPIC_API_KEY cfg)
   || PyStr.truthy (GROQ_API_KEY cfg) || PyStr.truthy (OPENROUTER_API_KEY cfg)
   = true ->
   PyStr.contains "/" (p_model p) = true)
  /\ (ollama_configured cfg = true -> p_provider p = Some "ollama")
  /\ (p_provider p = Some "ollama" ->
      PyStr.startswith "ollama/" (p_model p) = true).
Proof.
  intros H. open_prepare_params H.
  unfold p_model, p_provider. cbv beta iota.
  split; [| split].
  - intros Hkey.
    destruct (_ || ollama_configured cfg).
    { exact (contains_middle "/" "ollama" _). }
    destruct (PyStr.contains "/" mn) eqn:Hslash; cbn [negb]; [exact Hslash |].
    destruct (PyStr.truthy (OPENAI_API_KEY cfg));
      [exact (contains_middle "/" "openai" mn) |].
    destruct (PyStr.truthy (ANTHROPIC_API_KEY cfg));
      [exact (contains_middle "/" "anthropic" mn) |].
    destruct (PyStr.truthy (GROQ_API_KEY cfg));
      [exact (contains_middle "/" "groq" mn) |].
    destruct (PyStr.truthy (OPENROUTER_API_KEY cfg));
      [exact (contains_middle "/" "openrouter" mn) | discriminate Hkey].
  - intros ->. now rewrite orb_true_r.
  - destruct (_ || ollama_configured cfg); [| discriminate].
    intros _. exact (startswith_refl_app "ollama/" _).
Qed.

Lemma prepared_model_has_provider_witness :
  exists h' p,
    prepare_params Samples.cfg_openai Samples.heap2 Samples.base_request
      = Ok (h', p)
    /\ PyStr.contains "/" (p_model p) = true.
Proof.
  eexists _, _. split; [reflexivity |].
  refine (proj1 (prepared_model_has_provider Samples.cfg_openai Samples.heap2
                   Samples.base_request _ _ eq_refl) eq_refl).
Defined.

(** X11: the token limit is handed on under at most one name, max_tokens
    or max_completion_tokens, and then it is the caller's value; without a
    caller limit, and for a Bedrock model whose name contains claude-3-7,
    neither parameter is set. *)
Theorem prepared_token_limit
  (cfg : config) (h : heap) (rq : request) (h' : heap) (p : params) :
  prepare_params cfg h rq = Ok (h', p) ->
  (p_max_tokens p = None \/ p_max_completion_tokens p = None)
  /\ (forall n, p_max_tokens p = Some n \/ p_max_completion_tokens p = Some n ->
                max_tokens rq = Some n)
  /\ (max_tokens rq = None ->
      p_max_tokens p = None /\ p_max_completion_tokens p = None)
  /\ (p_provider p = None ->
      PyStr.startswith "bedrock/" (p_model p) = true ->
      PyStr.contains "claude-3-7" (p_model p) = true ->
      p_max_tokens p = None /\ p_max_completion_tokens p = None).
Proof.
  intros H. open_prepare_params H.
  unfold p_max_tokens, p_max_completion_tokens, p_model, p_provider.
  cbv beta iota.
  match goal with
  | E : match max_tokens rq with _ => _ end = (?a, ?b) |- _ =>
      rename E into Hlim
  end.
  destruct (max_tokens rq) as [n|].
  2:{ apply pair_equal_spec in Hlim as [<- <-].
      repeat split; try (now left); intros k [Hk|Hk]; discriminate Hk. }
  destruct (_ || ollama_configured cfg) eqn:Hollama.
  - destruct (_ && _) in Hlim; [| destruct (PyStr.contains "o1" _) in Hlim];
      apply pair_equal_spec in Hlim as [<- <-];
      (split; [tauto |]); (split; [intros k [Hk|Hk]; congruence |]);
      (split; [discriminate | discriminate]).
  - destruct (PyStr.startswith "bedrock/" _) eqn:Hb;
      destruct (PyStr.contains "claude-3-7" _) eqn:Hc; cbn [andb] in Hlim;
      try destruct (PyStr.contains "o1" _) in Hlim;
      apply pair_equal_spec in Hlim as [<- <-];
      (split; [tauto |]); (split; [intros k [Hk|Hk]; congruence |]);
      (split; [discriminate |]); intros _; try discriminate; tauto.
Qed.

Lemma prepared_token_limit_witness :
  exists h' p,
    prepare_params Samples.cfg_openai Samples.heap2 Samples.base_request
      = Ok (h', p)
    /\ p_max_tokens p = None /\ p_max_completion_tokens p = None.
Proof.
  eexists _, _. split; [reflexivity |].
  refine (proj1 (proj2 (proj2 (prepared_token_limit Samples.cfg_openai
            Samples.heap2 Samples.base_request _ _ eq_refl))) eq_refl).
Defined.

(** X12: the parameters carry tools and tool_choice together or not at
    all; they carry them exactly when the caller passed a non-empty tool
    list, and then unchanged. *)
Theorem prepared_tools
  (cfg : config) (h : heap) (rq : request) (h' : heap) (p : params) :
  prepare_params cfg h rq = Ok (h', p) ->
  (p_tools p = None <-> p_tool_choice p = None)
  /\ (tools rq = None \/ tools rq = Some [] -> p_tools p = None)
  /\ (forall ts, tools rq = Some ts -> ts <> [] ->
                 p_tools p = Some ts /\ p_tool_choice p = Some (tool_choice rq)).
Proof.
  intros H. open_prepare_params H.
  unfold p_tools, p_tool_choice. cbv beta iota.
  match goal with
  | E : match tools rq with _ => _ end = (?a, ?b) |- _ => rename E into Ht
  end.
  destruct (tools rq) as [[|t ts]|];
    apply pair_equal_spec in Ht as [<- <-];
    (split; [split; congruence |]);
    (split; [intros [Hn|Hn]; congruence |]);
    intros ts' [= <-] Hne; [now contradiction Hne | now split].
Qed.

Lemma prepared_tools_witness :
  exists h' p,
    prepare_params Samples.cfg_openai Samples.heap2 Samples.base_request
      = Ok (h', p)
    /\ p_tools p = None.
Proof.
  eexists _, _. split; [reflexivity |].
  refine (proj1 (proj2 (prepared_tools Samples.cfg_openai Samples.heap2
                          Samples.base_request _ _ eq_refl)) (or_introl eq_refl)).
Defined.

Lemma dict_get_dict_set_same (d : list (string * string)) (k v : string) :
  Classifier.dict_get (dict_set d k v) k = Some v.
Proof.
  induction d as [|[k' v'] d IH]; cbn [dict_set Classifier.dict_get].
  - now rewrite String.eqb_refl.
  - destruct (String.eqb_spec k' k) as [->|Hne];
      cbn [Classifier.dict_get].
    + now rewrite String.eqb_refl.
    + destruct (String.eqb_spec k' k); [contradiction | exact IH].
Qed.

Lemma dict_get_dict_set_other (d : list (string * string)) (k v k0 : string) :
  k <> k0 ->
  Classifier.dict_get (dict_set d k v) k0 = Classifier.dict_get d k0.
Proof.
  intros Hne. induction d as [|[k' v'] d IH]; cbn [dict_set Classifier.dict_get].
  - destruct (String.eqb_spec k k0); [contradiction | reflexivity].
  - destruct (String.eqb_spec k' k) as [->|Hk]; cbn [Classifier.dict_get].
    + destruct (String.eqb_spec k k0); [contradiction | reflexivity].
    + now rewrite IH.
Qed.

(** X13: for a model that is not treated as an Ollama model and whose name
    mentions claude or anthropic, the extended-output header
    "anthropic-beta" is among the extra headers, also when the OpenRouter
    referer and title headers are added; and for an "openrouter/" model a
    configured site URL is sent as "HTTP-Referer". *)
Theorem prepared_extra_headers
  (cfg : config) (h : heap) (rq : request) (h' : heap) (p : params) :
  prepare_params cfg h rq = Ok (h', p) ->
  p_provider p = None ->
  (mentions_anthropic (p_model p) = true ->
   Classifier.dict_get (default [] (p_extra_headers p)) "anthropic-beta"
   = Some "output-128k-2025-02-19")
  /\ (forall site_url,
        PyStr.startswith "openrouter/" (p_model p) = true ->
        OR_SITE_URL cfg = Some site_url -> site_url <> "" ->
        OR_APP_NAME cfg = None ->
        Classifier.dict_get (default [] (p_extra_headers p)) "HTTP-Referer"
        = Some site_url).
Proof.
  intros H. open_prepare_params H.
  unfold p_provider, p_extra_headers, p_model. cbv beta iota.
  destruct (_ || ollama_configured cfg); [discriminate |]. intros _.
  cbn [negb andb].
  split.
  - intros ->.
    destruct (PyStr.startswith "openrouter/" _ && _); [| reflexivity].
    cbn [default option_rect].
    destruct (OR_SITE_URL cfg) as [site_url|], (OR_APP_NAME cfg) as [app_name|];
      repeat match goal with
      | |- context [if PyStr.truthy ?o then _ else _] =>
          destruct (PyStr.truthy o)
      end;
      rewrite ?dict_get_dict_set_other by discriminate; reflexivity.
  - intros site_url -> -> Hne ->.
    assert (Ht : PyStr.truthy (Some site_url) = true)
      by (destruct site_url; [contradiction | reflexivity]).
    rewrite Ht. cbn [andb orb default option_rect].
    apply dict_get_dict_set_same.
Qed.

Lemma prepared_extra_headers_witness :
  exists h' p,
    prepare_params Samples.cfg_openai Samples.heap2 Samples.thinking_request
      = Ok (h', p)
    /\ Classifier.dict_get (default [] (p_extra_headers p)) "anthropic-beta"
       = Some "output-128k-2025-02-19".
Proof.
  eexists _, _. split; [reflexivity |].
  refine (proj1 (prepared_extra_headers Samples.cfg_openai Samples.heap2
                   Samples.thinking_request _ _ eq_refl eq_refl) eq_refl).
Defined.

Lemma enhance_roles
  (h : heap) (ms : list loc) (task_type : string) (h1 : heap) (em : list loc) :
  enhance_prompt_for_task h ms task_type = Ok (h1, em) ->
  (forall l, l <> next_loc h ->
             role (get h1 l) = role (get h l)
             /\ rest (get h1 l) = rest (get h l))
  /\ (em = next_loc h :: ms -> role (get h1 (next_loc h)) = Some "system").
Proof.
  unfold enhance_prompt_for_task.
  destruct (_ || _).
  { intros [= <- <-]. split; [now split |].
    intros Habs. apply (f_equal (@length _)) in Habs. cbn in Habs. lia. }
  destruct (find_system h ms) as [l0|].
  - intros H. apply bind_ok in H as (cur & _ & H).
    destruct (Classifier.dict_get _ _); [| discriminate H].
    injection H as <- <-. split.
    + intros l _. unfold get, set. cbn [cells].
      now destruct (Nat.eqb_spec l l0) as [->|].
    + intros Habs. apply (f_equal (@length _)) in Habs. cbn in Habs. lia.
  - destruct (Classifier.dict_get _ _); [| discriminate].
    cbn [alloc]. intros [= <- <-]. split.
    + intros l Hl. unfold get. cbn [cells].
      now destruct (Nat.eqb_spec l (next_loc h)).
    + intros _. unfold get. cbn [cells]. now rewrite Nat.eqb_refl.
Qed.

(** X14: prepare_params never drops, reorders or re-roles the caller's
    messages: the message list of the parameters is the caller's list, or
    that list behind one new system message, and every message object that
    existed before the call keeps its role and its keys other than content. *)
Theorem prepared_messages_kept
  (cfg : config) (h : heap) (rq : request) (h' : heap) (p : params) :
  prepare_params cfg h rq = Ok (h', p) ->
  (p_messages p = messages rq
   \/ (task_type rq <> "auto"
       /\ p_messages p = next_loc h :: messages rq
       /\ role (get h' (next_loc h)) = Some "system"))
  /\ (forall l, l <> next_loc h ->
                role (get h' l) = role (get h l)
                /\ rest (get h' l) = rest (get h l)).
Proof.
  intros H.
  assert (Hcache : forall g ms l (b : bool),
             role (get (if b then apply_prompt_caching g ms else g) l)
               = role (get g l)
             /\ rest (get (if b then apply_prompt_caching g ms else g) l)
               = rest (get g l)).
  { intros g ms l [|]; [| now split].
    destruct (apply_prompt_caching_preserved g ms) as [_ Hp].
    destruct (Hp l) as (Hr & Ho & _). now split. }
  open_prepare_params H.
  unfold p_messages. cbv beta iota.
  destruct (String.eqb_spec (task_type rq) "auto") as [Hauto|Hauto];
    cbn [negb] in Henh.
  - apply Ok_inj, pair_equal_spec in Henh as [<- <-].
    split; [now left |]. intros l _. apply Hcache.
  - apply bind_ok in Henh as ([h2 em] & He & Hl).
    apply Ok_inj, pair_equal_spec in Hl as [<- <-].
    destruct (enhance_roles _ _ _ _ _ He) as [Hroles Hnew].
    split.
    + destruct (enhance_result_list _ _ _ _ _ He) as [-> | ->].
      * left. now destruct (lists_differ _ _ _).
      * right. split; [exact Hauto |].
        assert (Hd : lists_differ h2 (next_loc h :: messages rq) (messages rq)
                     = true).
        { unfold lists_differ. rewrite bool_decide_eq_false_2; [reflexivity |].
          intros Hv. apply (f_equal (@length message)) in Hv.
          unfold view in Hv. rewrite !length_map in Hv. cbn [length] in Hv.
          lia. }
        rewrite Hd. split; [reflexivity |].
        match goal with
        | |- role (get (if ?b then _ else _) _) = _ =>
            rewrite (proj1 (Hcache h2 (next_loc h :: messages rq)
                              (next_loc h) b))
        end.
        now apply Hnew.
    + intros l Hl.
      match goal with
      | |- role (get (if ?b then apply_prompt_caching _ ?ms else _) _) = _ /\ _ =>
          destruct (Hcache h2 ms l b) as [-> ->]
      end.
      now apply Hroles.
Qed.

Lemma prepared_messages_kept_witness :
  exists h' p,
    prepare_params Samples.cfg_openai Samples.heap2
      (Samples.with_task Samples.base_request "coding" (lit 3 10))
      = Ok (h', p)
    /\ role (get h' 1%nat) = Some "user".
Proof.
  eexists _, _. split; [reflexivity |].
  refine (proj1 (proj2 (prepared_messages_kept Samples.cfg_openai Samples.heap2
                   (Samples.with_task Samples.base_request "coding" (lit 3 10))
                   _ _ eq_refl) 1%nat _)).
  cbn. lia.
Defined.

(** X15: with the task type "auto" and a model whose effective name
    mentions neither claude nor anthropic, prepare_params writes to no
    message at all: the heap and the message list come back as they were. *)
Theorem prepared_without_side_effect
  (cfg : config) (h : heap) (rq : request) (h' : heap) (p : params) :
  task_type rq = "auto" ->
  prepare_params cfg h rq = Ok (h', p) ->
  mentions_anthropic (p_model p) = false ->
  h' = h /\ p_messages p = messages rq.
Proof.
  intros Ht H Hm.
  destruct (prepare_params_auto_messages _ _ _ _ _ Ht H) as [Hms Hh].
  rewrite Hm in Hh. now split.
Qed.

Lemma prepared_without_side_effect_witness :
  exists p,
    prepare_params Samples.cfg_openai Samples.heap2 Samples.base_request
      = Ok (Samples.heap2, p).
Proof.
  destruct (prepare_params Samples.cfg_openai Samples.heap2 Samples.base_request)
    as [[h' p]|e] eqn:E; [| discriminate E].
  destruct (prepared_without_side_effect Samples.cfg_openai Samples.heap2
              Samples.base_request h' p eq_refl E) as [-> _].
  - vm_compute in E. now injection E as _ <-.
  - now exists p.
Defined.




Lemma last_user_content_skip (h : heap) (skipped others : list loc) :
  Forall (fun l => role_is (get h l) "user" = false) skipped ->
  last_user_content h (skipped ++ others) = last_user_content h others.
Proof.
  induction 1 as [|l skipped Hl _ IH]; [reflexivity |].
  cbn [app last_user_content]. now rewrite Hl.
Qed.

(** X24: with the task type "auto", a request for the configured default
    model whose last user message has a content that is not a string (a
    list of blocks, for instance) makes prepare_params raise
    AttributeError: the model selection lowers that content as if it were
    a string. *)
Theorem auto_selection_rejects_structured_content
  (cfg : config) (h : heap) (rq : request)
  (i : nat) (l : loc) (c : content_value) :
  task_type rq = "auto" ->
  model_name rq = MODEL_TO_USE cfg ->
  messages rq !! i = Some l ->
  role_is (get h l) "user" = true ->
  (forall j l', (i < j)%nat -> messages rq !! j = Some l' ->
                role_is (get h l') "user" = false) ->
  content (get h l) = Some c ->
  (forall s, c <> CStr s) ->
  prepare_params cfg h rq = Raise AttributeError.
Proof.
  intros Ht Hm Hi Hl Hafter Hc Hnot. unfold prepare_params.
  rewrite Ht, Hm, (String.eqb_refl (MODEL_TO_USE cfg)).
  cbn [PyStr.truthy andb].
  assert (Hsel : select_best_model_for_task cfg h "auto" (messages rq)
                 = Raise AttributeError).
  { unfold select_best_model_for_task. cbn [String.eqb Ascii.eqb Bool.eqb].
    assert (Hlast : last_user_content h (rev (messages rq)) = c).
    { rewrite <- (take_drop_middle (messages rq) i l Hi).
      rewrite rev_app_distr. cbn [rev]. rewrite <- app_assoc.
      rewrite last_user_content_skip.
      - cbn [app last_user_content]. now rewrite Hl, Hc.
      - apply Forall_forall. intros l' Hin.
        apply list_elem_of_In, in_rev, list_elem_of_In in Hin.
        apply list_elem_of_lookup in Hin as [k Hk].
        rewrite lookup_drop in Hk.
        apply (Hafter (S i + k)%nat l'); [lia | exact Hk]. }
    rewrite Hlast.
    destruct (messages rq) as [|l0 ms]; [discriminate Hi |].
    destruct c as [s|items|v]; [now contradiction (Hnot s) | reflexivity
                               | reflexivity]. }
  rewrite Hsel. reflexivity.
Qed.

Lemma auto_selection_rejects_structured_content_witness :
  prepare_params Samples.cfg_openai Samples.heap_blocks_user
    (Samples.with_model_name Samples.base_request "default-model")
  = Raise AttributeError.
Proof.
  apply (auto_selection_rejects_structured_content Samples.cfg_openai
           Samples.heap_blocks_user
           (Samples.with_model_name Samples.base_request "default-model")
           1%nat 1%nat (CList [Samples.plain_block "hello"]));
    try reflexivity.
  - intros [|[|j]] l' Hj Hl'; try lia. discriminate Hl'.
  - intros s. discriminate.
Defined.

End PreparedParameters.

(* ------------------------------------------------------------------ *)
(** ** Prompt caching: which messages are marked *)

Section CacheTargets.

Import F64 LLM.

Lemma note_when_all_found (h : heap) (i : nat) (l : loc) (f : found) :
  all_found f = true -> note h i l f = f.
Proof.
  unfold all_found, note.
  destruct (last_user_idx f), (second_last_user_idx f), (last_assistant_idx f);
    try discriminate.
  intros _.
  now destruct (role_is (get h l) "user"), (role_is (get h l) "assistant").
Qed.

Lemma fold_note_when_all_found (h : heap) (backwards : list (nat * loc))
  (f : found) :
  all_found f = true ->
  fold_left (fun f '(i, l) => note h i l f) backwards f = f.
Proof.
  intros Hf. induction backwards as [|[i l] backwards IH]; [reflexivity |].
  cbn [fold_left]. now rewrite note_when_all_found.
Qed.

Lemma scan_fold (h : heap) (backwards : list (nat * loc)) :
  forall f,
    scan h backwards f
    = fold_left (fun f '(i, l) => note h i l f) backwards f.
Proof.
  induction backwards as [|[i l] backwards IH]; intros f; [reflexivity |].
  cbn [scan fold_left]. destruct (all_found (note h i l f)) eqn:E.
  - now rewrite fold_note_when_all_found.
  - apply IH.
Qed.

Lemma find_indices_fold (h : heap) (ms : list loc) :
  find_indices h ms
  = fold_left (fun f '(i, l) => note h i l f)
      (rev (combine (seq 0 (length ms)) ms))
      {| last_user_idx := None;
         second_last_user_idx := None;
         last_assistant_idx := None |}.
Proof. unfold find_indices. apply scan_fold. Qed.

(** X16: the early exit of the backwards scan changes nothing: the indices
    found are those a scan of the whole list finds. *)
Theorem early_exit_is_an_optimisation (h : heap) (ms : list loc) :
  find_indices h ms
  = fold_left (fun f '(i, l) => note h i l f)
      (rev (combine (seq 0 (length ms)) ms))
      {| last_user_idx := None;
         second_last_user_idx := None;
         last_assistant_idx := None |}.
Proof. unfold find_indices. apply scan_fold. Qed.





Lemma note_keeps_last_user (h : heap) (j : nat) (l : loc) (f : found) (i : nat) :
  last_user_idx f = Some i -> last_user_idx (note h j l f) = Some i.
Proof.
  intros Hf. unfold note. rewrite Hf.
  destruct (role_is (get h l) "user").
  - now destruct (second_last_user_idx f).
  - destruct (role_is (get h l) "assistant"); [| exact Hf].
    now destruct (last_assistant_idx f).
Qed.

Lemma fold_note_keeps_last_user (h : heap) (backwards : list (nat * loc)) :
  forall (f : found) (i : nat),
    last_user_idx f = Some i ->
    last_user_idx (fold_left (fun f '(i, l) => note h i l f) backwards f)
    = Some i.
Proof.
  induction backwards as [|[j l] backwards IH]; intros f i Hf; [exact Hf |].
  cbn [fold_left]. apply IH. now apply note_keeps_last_user.
Qed.

Lemma fold_note_no_user (h : heap) (backwards : list (nat * loc)) :
  Forall (fun jl => role_is (get h (snd jl)) "user" = false) backwards ->
  forall f,
    last_user_idx f = None ->
    last_user_idx (fold_left (fun f '(i, l) => note h i l f) backwards f)
    = None.
Proof.
  induction 1 as [|[j l] backwards Hl _ IH]; intros f Hf; [exact Hf |].
  cbn [fold_left]. apply IH. unfold note. cbn [snd] in Hl. rewrite Hl.
  destruct (role_is (get h l) "assistant"); [| exact Hf].
  now destruct (last_assistant_idx f).
Qed.

Lemma combine_seq_app (xs ys : list loc) :
  forall a,
    combine (seq a (length (xs ++ ys))) (xs ++ ys)
    = combine (seq a (length xs)) xs
      ++ combine (seq (a + length xs) (length ys)) ys.
Proof.
  induction xs as [|x xs IH]; intros a; cbn [app length seq combine].
  - now rewrite Nat.add_0_r.
  - rewrite IH. now rewrite Nat.add_succ_r.
Qed.

(** The scan finds the last message of role "user". *)
Lemma find_indices_last_user (h : heap) (pre post : list loc) (l : loc) :
  role_is (get h l) "user" = true ->
  Forall (fun l' => role_is (get h l') "user" = false) post ->
  last_user_idx (find_indices h (pre ++ l :: post)) = Some (length pre).
Proof.
  intros Hl Hpost. rewrite find_indices_fold.
  rewrite combine_seq_app. cbn [length seq combine].
  rewrite rev_app_distr. cbn [rev]. rewrite <- app_assoc. cbn [app].
  rewrite fold_left_app. cbn [fold_left].
  apply fold_note_keeps_last_user. cbn [Nat.add].
  match goal with
  | |- last_user_idx (note h _ l ?F) = _ =>
      assert (Hnone : last_user_idx F = None)
  end.
  { apply fold_note_no_user; [| reflexivity].
    apply Forall_forall. intros [j l'] Hin. cbn [snd].
    apply list_elem_of_In, in_rev, in_combine_r in Hin.
    rewrite Forall_forall in Hpost. now apply Hpost, list_elem_of_In. }
  unfold note at 1. now rewrite Hl, Hnone.
Qed.

Lemma mark_all_hinted (items : list item) (b : block) :
  In (IDict b) (mark_all items) -> is_text b = true ->
  has_cache_control b = true.
Proof.
  unfold mark_all. intros Hin Ht. apply in_map_iff in Hin as ([b0|v] & Hb & _);
    [| discriminate Hb].
  destruct (is_text b0 && negb (has_cache_control b0)) eqn:E.
  - injection Hb as <-. reflexivity.
  - injection Hb as ->. rewrite Ht in E. cbn in E.
    now destruct (has_cache_control b).
Qed.

Lemma fully_hinted_wrapped (m : message) (s : string) :
  fully_hinted (set_content m (wrapped s)).
Proof.
  split; [intros s'; discriminate |].
  intros b [Hb|[]] _. now injection Hb as <-.
Qed.

Lemma fully_hinted_mark_all (m : message) (items : list item) :
  fully_hinted (set_content m (CList (mark_all items))).
Proof.
  split; [intros s'; discriminate |]. intros b Hb.
  exact (mark_all_hinted items b Hb).
Qed.

Lemma apply_cache_control_hints_target
  (h : heap) (ms : list loc) (i : nat) (l : loc) :
  ms !! i = Some l ->
  fully_hinted (get (apply_cache_control h ms (Some i)) l).
Proof.
  intros Hi. unfold apply_cache_control. rewrite Hi.
  destruct (content (get h l)) as [[s|items|v]|] eqn:Hc.
  - unfold get at 1, set. cbn [cells]. rewrite Nat.eqb_refl.
    apply fully_hinted_wrapped.
  - unfold get at 1, set. cbn [cells]. rewrite Nat.eqb_refl.
    apply fully_hinted_mark_all.
  - split; [intros s; congruence |]. unfold blocks. now rewrite Hc.
  - split; [intros s; congruence |]. unfold blocks. now rewrite Hc.
Qed.

Lemma apply_cache_control_keeps_fully_hinted
  (h : heap) (ms : list loc) (idx : option nat) (l : loc) :
  fully_hinted (get h l) ->
  fully_hinted (get (apply_cache_control h ms idx) l).
Proof.
  intros Hf. unfold apply_cache_control. destruct idx as [i|]; [| exact Hf].
  destruct (ms !! i) as [l0|]; [| exact Hf].
  destruct (Nat.eq_dec l l0) as [<-|Hne].
  - destruct (content (get h l)) as [[s|items|v]|] eqn:Hc; try exact Hf.
    + unfold get at 1, set. cbn [cells]. rewrite Nat.eqb_refl.
      apply fully_hinted_wrapped.
    + unfold get at 1, set. cbn [cells]. rewrite Nat.eqb_refl.
      apply fully_hinted_mark_all.
  - destruct (content (get h l0)) as [[s|items|v]|]; try exact Hf;
      unfold get at 1, set; cbn [cells];
      destruct (Nat.eqb_spec l l0); try contradiction; exact Hf.
Qed.

(** X18: after the cache marking, the last message of role "user" holds
    no plain string any more and each of its text blocks carries a cache
    hint. *)
Theorem last_user_message_fully_hinted
  (h : heap) (ms : list loc) (i : nat) (l : loc) :
  ms !! i = Some l ->
  role_is (get h l) "user" = true ->
  (forall j l', (i < j)%nat -> ms !! j = Some l' ->
                role_is (get h l') "user" = false) ->
  fully_hinted (get (apply_prompt_caching h ms) l).
Proof.
  intros Hi Hl Hafter. unfold apply_prompt_caching.
  set (h1 := cache_system_prompt h ms).
  assert (Hroles : forall l', role_is (get h1 l') "user"
                              = role_is (get h l') "user").
  { intros l'. unfold role_is.
    destruct (cache_system_prompt_preserved h ms) as [_ Hp].
    destruct (Hp l') as (Hr & _). unfold h1. now rewrite Hr. }
  assert (Hidx : last_user_idx (find_indices h1 ms) = Some i).
  { rewrite <- (take_drop_middle ms i l Hi) at 1.
    rewrite find_indices_last_user.
    - f_equal. rewrite list.length_take. apply lookup_lt_Some in Hi. lia.
    - now rewrite Hroles.
    - apply Forall_forall. intros l' Hin.
      apply list_elem_of_lookup in Hin as [k Hk].
      rewrite lookup_drop in Hk. rewrite Hroles.
      apply (Hafter (S i + k)%nat l'); [lia | exact Hk]. }
  rewrite Hidx.
  do 2 apply apply_cache_control_keeps_fully_hinted.
  now apply apply_cache_control_hints_target.
Qed.

Lemma last_user_message_fully_hinted_witness :
  fully_hinted (get (apply_prompt_caching Samples.heap2 [0%nat; 1%nat]) 1%nat).
Proof.
  apply (last_user_message_fully_hinted Samples.heap2 [0%nat; 1%nat] 1%nat);
    try reflexivity.
  intros [|[|j]] l' Hj Hl'; try lia. discriminate Hl'.
Defined.

End CacheTargets.

(* ------------------------------------------------------------------ *)
(** ** make_llm_api_call: outcomes of the retry loop *)

Section RetryOutcomes.

Import F64 LLM.

Variable cfg : config.
Variable acompletion : nat -> params -> outcome.

(** X19: when the first two attempts raise errors of the retried kinds and
    the third succeeds, the call returns that response after exactly three
    requests and two sleeps, each of the delay of the error before it. *)
Theorem two_failures_then_success
  (h : heap) (rq : request) (h' : heap) (p : params)
  (e0 e1 : exc) (r : string) :
  prepare_params cfg h rq = Ok (h', p) ->
  acompletion 0%nat p = Raised e0 -> caught_for_retry e0 = true ->
  acompletion 1%nat p = Raised e1 -> caught_for_retry e1 = true ->
  acompletion 2%nat p = Response r ->
  make_llm_api_call cfg acompletion h rq
  = Ok (h', (Return r,
             [Call p; Sleep (handle_error e0);
              Call p; Sleep (handle_error e1); Call p])).
Proof.
  unfold caught_for_retry. intros Hp H0 Hr0 H1 Hr1 H2.
  unfold make_llm_api_call. rewrite Hp. cbn [mbind res_bind].
  cbn [seq MAX_RETRIES attempts]. now rewrite H0, Hr0, H1, Hr1, H2.
Qed.






End RetryOutcomes.

Lemma two_failures_then_success_witness :
  exists h' p,
    LLM.make_llm_api_call Samples.cfg_openai
      (fun n _ => match n with
                  | 2%nat => LLM.Response "done"
                  | _ => LLM.Raised Samples.rate_limited
                  end)
      Samples.heap2 Samples.base_request
    = Ok (h', (LLM.Return "done",
               [LLM.Call p; LLM.Sleep 30; LLM.Call p; LLM.Sleep 30; LLM.Call p])).
Proof.
  eexists _, _.
  refine (two_failures_then_success Samples.cfg_openai _ Samples.heap2
            Samples.base_request _ _ Samples.rate_limited Samples.rate_limited
            "done" eq_refl eq_refl eq_refl eq_refl eq_refl eq_refl).
Defined.




(* ------------------------------------------------------------------ *)
(** ** Selection statistics *)

Section Statistics.

Import F64 SelectionStats.

Lemma count_up_sum (d : list (option string * nat)) (k : option string) :
  list_sum (map snd (count_up d k)) = S (list_sum (map snd d)).
Proof.
  induction d as [|[k' n] d IH]; cbn [count_up]; [reflexivity |].
  destruct (decide (k' = k)); cbn [map snd]; unfold list_sum in *;
    cbn [fold_right]; [lia |].
  rewrite IH. lia.
Qed.

Lemma count_up_keys (d : list (option string * nat)) (k k0 : option string) :
  In k0 (map fst (count_up d k)) <-> k0 = k \/ In k0 (map fst d).
Proof.
  induction d as [|[k' n] d IH]; cbn [count_up map fst In].
  - intuition congruence.
  - destruct (decide (k' = k)) as [->|Hne]; cbn [map fst In].
    + intuition congruence.
    + rewrite IH. intuition congruence.
Qed.

Lemma count_up_NoDup (d : list (option string * nat)) (k : option string) :
  List.NoDup (map fst d) -> List.NoDup (map fst (count_up d k)).
Proof.
  induction d as [|[k' n] d IH]; cbn [count_up map fst]; intros Hd.
  - constructor; [intros [] | constructor].
  - inversion Hd as [|? ? Hnotin Hd']; subst.
    destruct (decide (k' = k)) as [->|Hne]; cbn [map fst].
    + now constructor.
    + constructor; [| now apply IH].
      rewrite count_up_keys. intuition congruence.
Qed.

Lemma count_up_positive (d : list (option string * nat)) (k : option string) :
  Forall (fun kn => (1 <= snd kn)%nat) d ->
  Forall (fun kn => (1 <= snd kn)%nat) (count_up d k).
Proof.
  induction 1 as [|[k' n] d Hn Hd IH]; cbn [count_up].
  - repeat constructor.
  - destruct (decide (k' = k)); constructor; cbn [snd] in *; try lia;
      assumption.
Qed.

Lemma tally_counts (logs : list stored_log) :
  forall t,
    List.NoDup (map fst (t_models_used t)) ->
    List.NoDup (map fst (t_task_types t)) ->
    Forall (fun kn => (1 <= snd kn)%nat) (t_models_used t) ->
    Forall (fun kn => (1 <= snd kn)%nat) (t_task_types t) ->
    let t' := fold_left tally_log logs t in
    list_sum (map snd (t_models_used t'))
      = (list_sum (map snd (t_models_used t)) + length logs)%nat
    /\ list_sum (map snd (t_task_types t'))
       = (list_sum (map snd (t_task_types t)) + length logs)%nat
    /\ List.NoDup (map fst (t_models_used t'))
    /\ List.NoDup (map fst (t_task_types t'))
    /\ Forall (fun kn => (1 <= snd kn)%nat) (t_models_used t')
    /\ Forall (fun kn => (1 <= snd kn)%nat) (t_task_types t')
    /\ (forall k, In k (map fst (t_models_used t')) <->
                  In k (map fst (t_models_used t))
                  \/ In k (map sl_selected_model logs)).
Proof.
  induction logs as [|log logs IH]; intros t Hm Ht Pm Pt; cbn zeta.
  - cbn [fold_left length map In].
    repeat split; try assumption; try lia; tauto.
  - cbn [fold_left length].
    assert (Hm' : List.NoDup (map fst (t_models_used (tally_log t log))))
      by (apply count_up_NoDup; exact Hm).
    assert (Ht' : List.NoDup (map fst (t_task_types (tally_log t log))))
      by (apply count_up_NoDup; exact Ht).
    assert (Pm' : Forall (fun kn => (1 <= snd kn)%nat)
                    (t_models_used (tally_log t log)))
      by (apply count_up_positive; exact Pm).
    assert (Pt' : Forall (fun kn => (1 <= snd kn)%nat)
                    (t_task_types (tally_log t log)))
      by (apply count_up_positive; exact Pt).
    destruct (IH (tally_log t log) Hm' Ht' Pm' Pt')
      as (Sm & St & Nm & Nt & Qm & Qt & Km).
    assert (Em : list_sum (map snd (t_models_used (tally_log t log)))
                 = S (list_sum (map snd (t_models_used t))))
      by apply count_up_sum.
    assert (Et : list_sum (map snd (t_task_types (tally_log t log)))
                 = S (list_sum (map snd (t_task_types t))))
      by apply count_up_sum.
    split; [lia |]. split; [lia |]. split; [exact Nm |]. split; [exact Nt |].
    split; [exact Qm |]. split; [exact Qt |].
    intros k0. rewrite Km.
    assert (Ek : In k0 (map fst (t_models_used (tally_log t log)))
                 <-> k0 = sl_selected_model log
                     \/ In k0 (map fst (t_models_used t)))
      by apply count_up_keys.
    rewrite Ek. cbn [map In]. intuition congruence.
Qed.

(** X25: when no stored log has a null confidence, the counts per model
    and the counts per task type each add up to the number of logs, every
    model (and only a model) that occurs in the logs has an entry, entered
    once and with a count of at least 1, and the total is the number of
    logs; one null confidence turns the whole answer into empty statistics
    with an error. *)
Theorem statistics_counts_add_up
  (round2 round1 : float -> float) (logs : list stored_log) :
  let s := get_selection_stats_from_db round2 round1 logs in
  (existsb null_confidence logs = false ->
   st_error s = false
   /\ total_selections s = length logs
   /\ list_sum (map snd (models_used s)) = length logs
   /\ list_sum (map snd (task_types s)) = length logs
   /\ List.NoDup (map fst (models_used s))
   /\ List.NoDup (map fst (task_types s))
   /\ Forall (fun kn => (1 <= snd kn)%nat) (models_used s)
   /\ (forall k, In k (map fst (models_used s)) <->
                 In k (map sl_selected_model logs)))
  /\ (existsb null_confidence logs = true -> s = empty_stats true).
Proof.
  cbn zeta. unfold get_selection_stats_from_db.
  destruct logs as [|log logs].
  - split; [| discriminate]. intros _. cbn.
    repeat split; try constructor; tauto.
  - set (all := log :: logs).
    split; intros Hnull; rewrite Hnull; [| reflexivity].
    destruct (tally_counts all
                {| t_models_used := []; t_task_types := [];
                   t_confidence_sum := zero; t_override_count := 0 |}
                ltac:(constructor) ltac:(constructor)
                ltac:(constructor) ltac:(constructor))
      as (Sm & St & Nm & Nt & Qm & Qt & Km).
    cbn [st_error total_selections models_used task_types].
    cbn [t_models_used t_task_types map In] in Sm, St, Km.
    split; [reflexivity |]. split; [reflexivity |].
    split; [exact Sm |]. split; [exact St |].
    split; [exact Nm |]. split; [exact Nt |]. split; [exact Qm |].
    intros k; rewrite Km; tauto.
Qed.

Lemma statistics_counts_add_up_witness :
  models_used
    (get_selection_stats_from_db (fun x => x) (fun x => x)
       [Samples.general_log; Samples.coding_log; Samples.general_log])
  = [(Some "qwen3:32b", 2%nat);
     (Some "qwen2.5-coder:32b-instruct-q8_0", 1%nat)]
  /\ list_sum [2%nat; 1%nat] = 3%nat.
Proof.
  split; [reflexivity |].
  exact (proj1 (proj2 (proj2 (proj1 (statistics_counts_add_up (fun x => x)
           (fun x => x)
           [Samples.general_log; Samples.coding_log; Samples.general_log])
           eq_refl)))).
Defined.

(** X26: the dashboard reports the database statistics exactly when they
    count at least one selection; with no log, and also when a null
    confidence made the statistics fail, it answers from the log files,
    and that answer is always empty. *)
Theorem dashboard_source
  (round2 round1 : float -> float) (logs : list stored_log) (days : Z) :
  let answer := get_model_selection_stats round2 round1 logs days in
  (logs <> [] -> existsb null_confidence logs = false ->
   answer = ("database", get_selection_stats_from_db round2 round1 logs)
   /\ total_selections (snd answer) = length logs)
  /\ (logs = [] \/ existsb null_confidence logs = true ->
      answer = ("log_files", empty_stats false)).
Proof.
  cbn zeta. unfold get_model_selection_stats, get_selection_stats_from_db.
  destruct logs as [|log logs].
  - split; [intros H; now contradiction H | intros _; reflexivity].
  - split.
    + intros _ Hnull. rewrite Hnull. cbn. tauto.
    + intros [H|H]; [discriminate H | now rewrite H].
Qed.

Lemma dashboard_source_witness :
  fst (get_model_selection_stats (fun x => x) (fun x => x)
         [Samples.general_log] 7%Z)
  = "database".
Proof.
  destruct (dashboard_source (fun x => x) (fun x => x)
              [Samples.general_log] 7%Z) as [H _].
  destruct H as [-> _]; [discriminate | reflexivity | reflexivity].
Defined.

End Statistics.
